(** * vo-monetary: the Money value object of [source/money.js]

    A shallow embedding of the [Money] value object and of the part of the
    JavaScript host it relies on (IEEE 754 binary64 numbers, the conversions
    between numbers and strings), followed by the properties of the
    specification stated and settled over it.

    Numbers are [spec_float] values of the Standard Library at precision 53
    and maximal exponent 1024, so every operation of the source on a number
    is an executable function on integers. *)

From Stdlib Require Import ZArith QArith Qpower Lia Bool List String Ascii.
From Stdlib Require Import Floats.SpecFloat.
Import ListNotations.

Local Open Scope string_scope.
Local Open Scope Z_scope.

(** ** The host's numbers *)

Module Num.

Definition prec : Z := 53.
Definition emax : Z := 1024.

(** A JavaScript Number. *)
Definition number : Type := spec_float.

(** The numbers the host can hold: a finite one has its significand and
    exponent in canonical form. *)
Definition valid (x : number) : bool := valid_binary prec emax x.

Definition mul : number -> number -> number := SFmul prec emax.
Definition div : number -> number -> number := SFdiv prec emax.
Definition add : number -> number -> number := SFadd prec emax.
Definition sub : number -> number -> number := SFsub prec emax.
Definition abs : number -> number := SFabs.

(** [===] on two numbers. *)
Definition eqb : number -> number -> bool := SFeqb.
(** [<] on two numbers. *)
Definition ltb : number -> number -> bool := SFltb.

Definition isNaN (x : number) : bool :=
  match x with S754_nan => true | _ => false end.

(** The global [isFinite] on a number. *)
Definition isFinite (x : number) : bool :=
  match x with
  | S754_zero _ | S754_finite _ _ _ => true
  | S754_infinity _ | S754_nan => false
  end.

(** The Number value of a mathematical integer. *)
Definition of_Z (z : Z) : number := binary_normalize prec emax z 0 false.

(** The Number value of the rational [n / d], [n >= 0], with sign [neg]:
    the quotient is cut at the working precision with the position of the
    remainder, then rounded to nearest, ties to even. *)
Definition of_ratio (neg : bool) (n : Z) (d : positive) : number :=
  match n with
  | Zpos _ =>
      let '(q, e, l) := SFdiv_core_binary prec emax n 0 (Zpos d) 0 in
      binary_round_aux prec emax neg q e l
  | _ => S754_zero neg
  end.

(** The Number value of [m * 10^e], [m] any integer. *)
Definition of_decimal (neg : bool) (m : Z) (e : Z) : number :=
  match e with
  | Zneg p => of_ratio neg m (Pos.pow 10 p)
  | _ => of_ratio neg (m * 10 ^ e) 1
  end.

(** [Math.pow(10, n)] for an integer [n]: the number nearest to the power,
    which is the power itself up to [10^22]. The language leaves the
    precision of [Math.pow] to the host: outside 0 to 22 an engine may be
    an ulp away from the nearest number. *)
Definition pow10 (n : Z) : number := of_decimal false 1 n.

(** [Math.floor]. *)
Definition floor (x : number) : number :=
  match x with
  | S754_finite s m (Zneg p) =>
      let q := Z.shiftr (Zpos m) (Zpos p) in
      let exact := Z.eqb (Z.shiftl q (Zpos p)) (Zpos m) in
      if s then
        binary_normalize prec emax (- (if exact then q else q + 1)) 0 true
      else of_Z q
  | _ => x
  end.

(** The rational a finite number stands for, as numerator and
    denominator of its magnitude. *)
Definition magnitude (m : positive) (e : Z) : Z * positive :=
  match e with
  | Zneg p => (Zpos m, Pos.pow 2 p)
  | _ => (Zpos m * 2 ^ e, 1%positive)
  end.

End Num.

(** ** Numbers and strings: [Number::toString], [parseInt], [parseFloat] *)

Module Conv.
Import Num.

(** [a / b < 10^n]. *)
Definition lt_pow10 (a : Z) (b : positive) (n : Z) : bool :=
  match n with
  | Zneg p => a * 10 ^ Zpos p <? Zpos b
  | _ => a <? Zpos b * 10 ^ n
  end.

(** The least [n] with [a / b < 10^n], searched from the estimate [n]. *)
Fixpoint decimal_exponent (fuel : nat) (a : Z) (b : positive) (n : Z) : Z :=
  match fuel with
  | O => n
  | S fuel' =>
      if lt_pow10 a b n then
        if lt_pow10 a b (n - 1) then decimal_exponent fuel' a b (n - 1)
        else n
      else decimal_exponent fuel' a b (n + 1)
  end.

(** The value of the decimal [s * 10^t]. *)
Definition decimal_value (s t : Z) : Q := inject_Z s * (10 # 1) ^ t.

(** The numbers that round to the positive finite number [m * 2^e] lie
    between the midpoints to its two neighbours; the one below is nearer
    by half when [m] is the least significand of a binade. *)
Definition lower (m : positive) (e : Z) : Q :=
  inject_Z (4 * Zpos m
            - (if (Zpos m =? 2 ^ 52) && (-1074 <? e) then 1 else 2))
  * (2 # 1) ^ (e - 2).

Definition upper (m : positive) (e : Z) : Q :=
  inject_Z (4 * Zpos m + 2) * (2 # 1) ^ (e - 2).

(** Whether the Number value of [c] is [m * 2^e]: [c] lies strictly between
    the midpoints, or on one of them when the significand is even. *)
Definition reads_as (m : positive) (e : Z) (c : Q) : bool :=
  match lower m e ?= c, c ?= upper m e with
  | Lt, Lt => true
  | Eq, Lt | Lt, Eq => Z.even (Zpos m)
  | _, _ => false
  end%Q.

(** The number itself in decimal: [m * 2^e] is [m * 5^p * 10^e] for a
    negative [e = - p]. *)
Definition exact_decimal (m : positive) (e : Z) : Z * Z :=
  match e with
  | Zneg p => (Zpos m * 5 ^ Zpos p, e)
  | _ => (Zpos m * 2 ^ e, 0)
  end.

(** The digits of the positive number [m * 2^e = a / b], after the host's
    rule: with [n] its decimal exponent, the least count [k] of digits for
    which some integer [s] has [m * 2^e] as the Number value of
    [s * 10^(n-k)]; among two such integers the one nearer to the number,
    the even one on a tie. The result is [(s, n - k)]. *)
Fixpoint shortest (fuel : nat) (m : positive) (e : Z) (a : Z) (b : positive)
         (n : Z) (k : Z) : Z * Z :=
  match fuel with
  | O => exact_decimal m e
  | S fuel' =>
      let num := match k - n with Zneg _ => a | d => a * 10 ^ d end in
      let den :=
        match k - n with Zneg p => Zpos b * 10 ^ Zpos p | _ => Zpos b end in
      let lo := num / den in
      let r := num mod den in
      let okLo := (0 <? lo) && reads_as m e (decimal_value lo (n - k)) in
      let okHi := reads_as m e (decimal_value (lo + 1) (n - k)) in
      match okLo, okHi with
      | true, true =>
          match 2 * r ?= den with
          | Lt => (lo, n - k)
          | Gt => (lo + 1, n - k)
          | Eq => if Z.even lo then (lo, n - k) else (lo + 1, n - k)
          end
      | true, false => (lo, n - k)
      | false, true => (lo + 1, n - k)
      | false, false => shortest fuel' m e a b n (k + 1)
      end
  end.

(** Trailing zeros of [s] moved into the exponent. *)
Fixpoint strip_zeros (fuel : nat) (s e : Z) : Z * Z :=
  match fuel with
  | O => (s, e)
  | S fuel' =>
      if (0 <? s) && (s mod 10 =? 0) then strip_zeros fuel' (s / 10) (e + 1)
      else (s, e)
  end.

(** The decimal reading of a positive finite number: digits [s] and
    exponent [e] with the number read as [s * 10^e]. *)
Definition decimal_of (m : positive) (e : Z) : Z * Z :=
  let '(a, b) := magnitude m e in
  let est := (Z.log2 a - Z.log2 (Zpos b)) * 30103 / 100000 in
  let n := decimal_exponent 8 a b est in
  let '(s, e10) := shortest 1100 m e a b n 1 in
  strip_zeros 1100 s e10.

Definition digit_char (d : Z) : ascii := ascii_of_nat (48 + Z.to_nat d).

(** The decimal digits of a non-negative integer, most significant first. *)
Fixpoint digits_of (fuel : nat) (z : Z) (acc : list ascii) : list ascii :=
  match fuel with
  | O => acc
  | S fuel' =>
      let acc' := digit_char (z mod 10) :: acc in
      if z <? 10 then acc' else digits_of fuel' (z / 10) acc'
  end.

Definition Z_to_string (z : Z) : string :=
  string_of_list_ascii (digits_of (S (Z.to_nat (Z.log2 z))) z []).

Definition zeros (n : Z) : string :=
  string_of_list_ascii (repeat "0"%char (Z.to_nat n)).

(** [Number::toString] in radix 10 on a positive finite number. *)
Definition positive_to_string (m : positive) (e : Z) : string :=
  let '(s, e10) := decimal_of m e in
  let ds := Z_to_string s in
  let k := Z.of_nat (String.length ds) in
  let n := k + e10 in
  if (k <=? n) && (n <=? 21) then ds ++ zeros (n - k)
  else if (0 <? n) && (n <=? 21) then
    substring 0 (Z.to_nat n) ds ++ "." ++ substring (Z.to_nat n) (Z.to_nat (k - n)) ds
  else if (-6 <? n) && (n <=? 0) then "0." ++ zeros (- n) ++ ds
  else
    let ex := (if n - 1 <? 0 then "-" else "+") ++ Z_to_string (Z.abs (n - 1)) in
    if k =? 1 then ds ++ "e" ++ ex
    else substring 0 1 ds ++ "." ++ substring 1 (Z.to_nat (k - 1)) ds ++ "e" ++ ex.

(** [Number::toString] in radix 10. *)
Definition toString (x : number) : string :=
  match x with
  | S754_nan => "NaN"
  | S754_zero _ => "0"
  | S754_infinity s => if s then "-Infinity" else "Infinity"
  | S754_finite s m e =>
      (if s then "-" else "") ++ positive_to_string m e
  end.

Definition is_digit (c : ascii) : bool :=
  let n := Z.of_nat (nat_of_ascii c) in (48 <=? n) && (n <=? 57).

(** White space among the characters of a string here, which are ASCII;
    the other Unicode spaces that [parseInt] skips are not covered. *)
Definition is_space (c : ascii) : bool :=
  let n := Z.of_nat (nat_of_ascii c) in
  ((9 <=? n) && (n <=? 13)) || (n =? 32).

Fixpoint skip_spaces (l : list ascii) : list ascii :=
  match l with
  | c :: l' => if is_space c then skip_spaces l' else l
  | [] => []
  end.

(** The longest prefix of decimal digits: its value added to [acc], the
    count of digits added to [cnt], and what follows. *)
Fixpoint read_digits (l : list ascii) (acc cnt : Z) : Z * Z * list ascii :=
  match l with
  | c :: l' =>
      if is_digit c
      then read_digits l' (acc * 10 + (Z.of_nat (nat_of_ascii c) - 48)) (cnt + 1)
      else (acc, cnt, l)
  | [] => (acc, cnt, [])
  end.

(** An optional sign: whether it is [-], and what follows. *)
Definition read_sign (l : list ascii) : bool * list ascii :=
  match l with
  | "-"%char :: l' => (true, l')
  | "+"%char :: l' => (false, l')
  | _ => (false, l)
  end.

(** [parseInt(s, 10)] on a string. *)
Definition parseInt_string (s : string) : number :=
  let '(neg, l) := read_sign (skip_spaces (list_ascii_of_string s)) in
  let '(v, cnt, _) := read_digits l 0 0 in
  if cnt =? 0 then S754_nan else of_decimal neg v 0.

Fixpoint starts_with (p l : list ascii) : bool :=
  match p, l with
  | [], _ => true
  | a :: p', b :: l' => Ascii.eqb a b && starts_with p' l'
  | _ :: _, [] => false
  end.

(** [parseFloat(s)] on a string: the longest prefix that is a decimal
    literal. *)
Definition parseFloat_string (s : string) : number :=
  let '(neg, l) := read_sign (skip_spaces (list_ascii_of_string s)) in
  if starts_with (list_ascii_of_string "Infinity") l then S754_infinity neg
  else
    let '(i, ci, r1) := read_digits l 0 0 in
    let '(m, cf, r2) :=
      match r1 with
      | "."%char :: r => read_digits r i 0
      | _ => (i, 0, r1)
      end in
    if ci + cf =? 0 then S754_nan
    else
      let ex :=
        match r2 with
        | c :: r =>
            if Ascii.eqb c "e" || Ascii.eqb c "E" then
              let '(eneg, r') := read_sign r in
              let '(v, cnt, _) := read_digits r' 0 0 in
              if cnt =? 0 then 0 else if eneg then - v else v
            else 0
        | [] => 0
        end in
      of_decimal neg m (ex - cf).

End Conv.

(** ** Values, errors and the collaborators of [Money] *)

(** Modelled from the spec: the [Currency] collaborator, which is not part of
    [source/money.js]. The spec gives it as an opaque, string-coded identity
    with structural equality and a stable string representation. *)
Record Currency : Type := { code : string }.

Module CurrencyOps.
(** [a.equals(b)]: equality by value, that is by code. *)
Definition equals (a b : Currency) : bool := String.eqb (code a) (code b).
(** [c.toString()]: the human-readable code. *)
Definition toString (c : Currency) : string := code c.
End CurrencyOps.

(** The values that reach [Money] as arguments or as fields of a plain
    object: primitives and [Currency] instances. *)
Inductive value : Type :=
| VUndefined
| VNull
| VBool (b : bool)
| VNum (n : Num.number)
| VStr (s : string)
| VCurrency (c : Currency).

(** A plain object [{amount, base, decimals, currency}]; an absent field is
    [VUndefined], or [None] for [decimals], which is an integer when it is
    given ([Match.Integer] in [fields()]). Line 18 of the source takes any
    [decimals] other than [undefined]; one that is no integer is not
    covered. *)
Record data : Type := {
  d_amount : value;
  d_base : value;
  d_decimals : option Z;
  d_currency : value
}.

(** The failures of the source. The first three are [Match.Error]s of
    [check], told apart by what was checked; the next two are the [Error]s
    the source throws with a message of [Money.ERRORS]; the last is the
    host's [TypeError] on reading a property of [undefined] or [null]. *)
Inductive error : Type :=
| InvalidAmount
| InvalidRate
| InvalidCurrency
| CurrencyMismatch (message : string)
| SameCurrencyConversion (message : string)
| TypeError.

Inductive result (A : Type) : Type :=
| Ok (a : A)
| Err (e : error).
Arguments Ok {A} a.
Arguments Err {A} e.

Definition bind {A B : Type} (r : result A) (k : A -> result B) : result B :=
  match r with
  | Ok a => k a
  | Err e => Err e
  end.

Notation "x <- r ;; k" := (bind r (fun x => k))
  (at level 61, r at next level, right associativity).
Notation "r ;;; k" := (bind r (fun _ => k))
  (at level 61, right associativity).

Module Host.
Import Num.

(** Truthiness. *)
Definition truthy (v : value) : bool :=
  match v with
  | VUndefined | VNull => false
  | VBool b => b
  | VNum n =>
      match n with
      | S754_zero _ | S754_nan => false
      | _ => true
      end
  | VStr s => negb (String.eqb s "")
  | VCurrency _ => true
  end.

(** [v.toString()]; [undefined] and [null] have no properties. *)
Definition toString (v : value) : result string :=
  match v with
  | VUndefined | VNull => Err TypeError
  | VBool b => Ok (if b then "true" else "false")
  | VNum n => Ok (Conv.toString n)
  | VStr s => Ok s
  | VCurrency c => Ok (CurrencyOps.toString c)
  end.

(** The abstract operation [ToString], as [parseInt] applies it. *)
Definition ToString (v : value) : string :=
  match v with
  | VUndefined => "undefined"
  | VNull => "null"
  | VBool b => if b then "true" else "false"
  | VNum n => Conv.toString n
  | VStr s => s
  | VCurrency c => CurrencyOps.toString c
  end.

(** [parseInt(v, 10)]. *)
Definition parseInt (v : value) : number := Conv.parseInt_string (ToString v).

(** [parseFloat(v)]. *)
Definition parseFloat (v : value) : number := Conv.parseFloat_string (ToString v).

(** Modelled from the spec: [check(v, Number)] of the host framework, which
    is not part of the sources. The spec requires a finite real number and
    rejects a missing value, a string and a non-finite number. *)
Definition check_Number (v : value) : bool :=
  match v with
  | VNum n => isFinite n
  | _ => false
  end.

(** [check(v, Currency)]: an instance of [Currency]. *)
Definition check_Currency (v : value) : result Currency :=
  match v with
  | VCurrency c => Ok c
  | _ => Err InvalidCurrency
  end.

Definition is_letter (c : ascii) : bool :=
  let n := Z.of_nat (nat_of_ascii c) in
  ((65 <=? n) && (n <=? 90)) || ((97 <=? n) && (n <=? 122)).

(** Modelled from the spec: [new Currency(v)], which is not part of
    [source/money.js]. A code is three or four letters; an instance is
    taken as it is; anything else cannot be resolved. *)
Definition new_Currency (v : value) : result Currency :=
  match v with
  | VCurrency c => Ok c
  | VStr s =>
      let l := list_ascii_of_string s in
      if forallb is_letter l
         && ((List.length l =? 3)%nat || (List.length l =? 4)%nat)
      then Ok {| code := s |}
      else Err InvalidCurrency
  | _ => Err InvalidCurrency
  end.

End Host.

(** ** The exact-decimal collaborator *)

(** [BigNumber] is not part of [source/money.js]; the source uses the
    operations below and nothing else of it. *)
Class BigNumberLib : Type := {
  BigNumber : Type;
  (** [new BigNumber(n)] *)
  bn_new : Num.number -> BigNumber;
  bn_add : BigNumber -> BigNumber -> BigNumber;
  bn_subtract : BigNumber -> BigNumber -> BigNumber;
  bn_multiply : BigNumber -> BigNumber -> BigNumber;
  bn_divide : BigNumber -> BigNumber -> BigNumber;
  bn_percentage : BigNumber -> BigNumber -> BigNumber;
  bn_isEqual : BigNumber -> BigNumber -> bool;
  bn_isGreaterThan : BigNumber -> BigNumber -> bool;
  bn_isGreaterThanOrEqualTo : BigNumber -> BigNumber -> bool;
  bn_isLessThan : BigNumber -> BigNumber -> bool;
  bn_isLessThanOrEqualTo : BigNumber -> BigNumber -> bool;
  (** [x.toNumber()] *)
  bn_toNumber : BigNumber -> Num.number
}.

(** What the spec asks of the collaborator's comparisons: on the finite
    numbers of the host they agree with the order of the numbers. *)
Class BigNumberOrder (L : BigNumberLib) : Prop := {
  bn_isEqual_spec : forall x y,
    Num.valid x = true -> Num.valid y = true ->
    Num.isFinite x = true -> Num.isFinite y = true ->
    bn_isEqual (bn_new x) (bn_new y) = Num.eqb x y;
  bn_isLessThan_spec : forall x y,
    Num.valid x = true -> Num.valid y = true ->
    Num.isFinite x = true -> Num.isFinite y = true ->
    bn_isLessThan (bn_new x) (bn_new y) = Num.ltb x y;
  bn_isGreaterThan_spec : forall x y,
    Num.valid x = true -> Num.valid y = true ->
    Num.isFinite x = true -> Num.isFinite y = true ->
    bn_isGreaterThan (bn_new x) (bn_new y) = Num.ltb y x
}.

Module Decimal.
Import Num.
Local Open Scope Q_scope.

(** An exact decimal, or nothing when the value is not a finite number. *)
Definition t : Type := option Q.

(** The decimal a number is read as: the digits the host prints for it. *)
Definition of_number (x : number) : t :=
  match x with
  | S754_zero _ => Some 0
  | S754_finite s m e =>
      let '(d, e10) := Conv.decimal_of m e in
      Some (Conv.decimal_value (if s then (- d)%Z else d) e10)
  | _ => None
  end.

(** The number nearest to an exact decimal. *)
Definition to_number (x : t) : number :=
  match x with
  | Some q => of_ratio (Qnum q <? 0)%Z (Z.abs (Qnum q)) (Qden q)
  | None => S754_nan
  end.

Definition lift2 (f : Q -> Q -> Q) (x y : t) : t :=
  match x, y with
  | Some p, Some q => Some (f p q)
  | _, _ => None
  end.

Definition divide (x y : t) : t :=
  match x, y with
  | Some p, Some q => if Qeq_bool q 0 then None else Some (p / q)
  | _, _ => None
  end.

Definition compare_with (f : comparison -> bool) (x y : t) : bool :=
  match x, y with
  | Some p, Some q => f (p ?= q)
  | _, _ => false
  end.

Definition is_Eq (c : comparison) : bool := match c with Eq => true | _ => false end.
Definition is_Lt (c : comparison) : bool := match c with Lt => true | _ => false end.
Definition is_Gt (c : comparison) : bool := match c with Gt => true | _ => false end.

End Decimal.

(** Modelled from the spec: the exact-decimal arithmetic collaborator
    ([BigNumber]), which is not part of the sources. The spec gives it as
    addition, subtraction, multiplication, division, percentage-of and
    comparison on exact decimals, with conversion to a plain number. A
    quotient is kept exact here (the spec leaves the engine's precision
    open), and a non-finite operand or a zero divisor gives no decimal. *)
#[export] Instance decimal_BigNumber : BigNumberLib := {|
  BigNumber := Decimal.t;
  bn_new := Decimal.of_number;
  bn_add := Decimal.lift2 Qplus;
  bn_subtract := Decimal.lift2 Qminus;
  bn_multiply := Decimal.lift2 Qmult;
  bn_divide := Decimal.divide;
  bn_percentage := fun x p => Decimal.lift2 (fun a b => a * b / 100)%Q x p;
  bn_isEqual := Decimal.compare_with Decimal.is_Eq;
  bn_isGreaterThan := Decimal.compare_with Decimal.is_Gt;
  bn_isGreaterThanOrEqualTo := Decimal.compare_with (fun c => negb (Decimal.is_Lt c));
  bn_isLessThan := Decimal.compare_with Decimal.is_Lt;
  bn_isLessThanOrEqualTo := Decimal.compare_with (fun c => negb (Decimal.is_Gt c));
  bn_toNumber := Decimal.to_number
|}.

(** The host's own arithmetic, seen through the same interface: what the
    source would compute without the collaborator. *)
Definition native_BigNumber : BigNumberLib := {|
  BigNumber := Num.number;
  bn_new := fun x => x;
  bn_add := Num.add;
  bn_subtract := Num.sub;
  bn_multiply := Num.mul;
  bn_divide := Num.div;
  bn_percentage := fun x p => Num.div (Num.mul x p) (Num.of_Z 100);
  bn_isEqual := Num.eqb;
  bn_isGreaterThan := fun x y => Num.ltb y x;
  bn_isGreaterThanOrEqualTo := fun x y => SFleb y x;
  bn_isLessThan := Num.ltb;
  bn_isLessThanOrEqualTo := SFleb;
  bn_toNumber := fun x => x
|}.

(** ** [Money] *)

Record Money : Type := {
  amount : Num.number;
  base : string;
  decimals : Z;
  currency : Currency
}.

(** What a caller can pass where the source expects one argument: a value
    or a plain object. *)
Inductive argument : Type :=
| AValue (v : value)
| AData (d : data).

(** What a caller can pass to a binary operation: a [Money], a value, or a
    plain object. *)
Inductive operand : Type :=
| OMoney (m : Money)
| OValue (v : value)
| OData (d : data).

(** [Money.DEFAULT_CURRENCY] *)
Definition DEFAULT_CURRENCY : string := "EUR".

Module ERRORS.
Definition newline : string := String (ascii_of_nat 10) "".

(** [Money.ERRORS.sameCurrencyConversion(currency)] *)
Definition sameCurrencyConversion (currency : Currency) : string :=
  "Converting to same currency '" ++ CurrencyOps.toString currency
    ++ "' is not allowed".

(** [Money.ERRORS.currencyMissmatch(requiredCurrency, passedCurrency)];
    the template spans two lines of the source. *)
Definition currencyMissmatch (requiredCurrency : Currency)
           (passedCurrency : value) : result string :=
  passed <- Host.toString passedCurrency ;;
  Ok ("Currency passed '" ++ passed ++ "' does not match required"
        ++ newline ++ "    '" ++ CurrencyOps.toString requiredCurrency ++ "'").
End ERRORS.

(** [_isInteger(n)] on a number: [typeof n === 'number'] holds, and
    [parseFloat] and [parseInt] go through the string of [n]. *)
Definition _isInteger (n : Num.number) : bool :=
  Num.eqb (Host.parseFloat (VNum n)) (Host.parseInt (VNum n))
  && negb (Num.isNaN n).

(** The loop of [_decimalPlaces]: [c] and [count] after it, the fuel being
    the number of iterations allowed. *)
Fixpoint decimalPlaces_loop (fuel : nat) (a c : Num.number) (count : Z) : Z :=
  if negb (_isInteger c) && Num.isFinite c then
    match fuel with
    | O => count
    | S fuel' => decimalPlaces_loop fuel' a (Num.mul a (Num.pow10 count)) (count + 1)
    end
  else count.

(** [_decimalPlaces(n)] *)
Definition _decimalPlaces (n : Num.number) : Z :=
  let a := Num.abs n in
  let count := decimalPlaces_loop 310 a a 1 in
  Z.min (count - 1) 20.

(** The [base] the constructor derives from an amount and a count of
    decimals (line 34 of the source). *)
Definition base_of (amount : Num.number) (decimals : Z) : string :=
  Conv.toString (Num.floor (Num.mul amount (Num.pow10 decimals))).

(** Modelled from the spec: the check of the superclass
    ([Space.domain.ValueObject]), which is not part of the sources, against
    [fields()]: [amount] a Number, [base] a String, [decimals] an integer,
    [currency] a Currency. The last three hold by type here. *)
Definition ValueObject_check (m : Money) : result Money :=
  if Host.check_Number (VNum (amount m)) then Ok m else Err InvalidAmount.

(** The first part of the constructor (lines 13 to 28): the amount and the
    currency it goes on with. A single argument of type object is taken as
    the record of the fields ([null] and a [Currency] are objects too); any
    other call is positional, with the default currency for a second
    argument left out. The source fills the caller's record in place; only
    the instance built from it is followed here. *)
Definition Constructor_data (arguments : list argument)
  : result (Num.number * value) :=
  match arguments with
  | [AData d] =>
      match d_base d, d_decimals d with
      | VUndefined, _ | _, None =>
          match d_amount d with
          | VNum n =>
              if Host.check_Number (d_amount d) then Ok (n, d_currency d)
              else Err InvalidAmount
          | _ => Err InvalidAmount
          end
      | b, Some dec =>
          Ok (Num.div (Host.parseInt b) (Num.pow10 dec), d_currency d)
      end
  | [AValue VNull] => Err TypeError
  | [AValue (VCurrency _)] => Err InvalidAmount
  | AValue (VNum n) :: rest =>
      if Host.check_Number (VNum n) then
        match rest with
        | [] | AValue VUndefined :: _ => Ok (n, VStr DEFAULT_CURRENCY)
        | AValue c :: _ => Ok (n, c)
        | AData _ :: _ => Err InvalidCurrency
        end
      else Err InvalidAmount
  | _ => Err InvalidAmount
  end.

(** [new Money(...)] *)
Definition Constructor (arguments : list argument) : result Money :=
  d <- Constructor_data arguments ;;
  let '(n, c) := d in
  cur <- match c with
         | VCurrency cur => Ok cur
         | _ => Host.new_Currency
                  (if Host.truthy c then c else VStr DEFAULT_CURRENCY)
         end ;;
  let dec := _decimalPlaces n in
  ValueObject_check
    {| amount := n; base := base_of n dec; decimals := dec; currency := cur |}.

(** [m.valueOf()] *)
Definition valueOf (m : Money) : Num.number := amount m.

(** [m.isIn(currency)] *)
Definition isIn (m : Money) (currency' : value) : result bool :=
  c <- Host.check_Currency currency' ;;
  Ok (CurrencyOps.equals (currency m) c).

(** [other.currency] and [other.amount]. *)
Definition operand_currency (other : operand) : result value :=
  match other with
  | OMoney m => Ok (VCurrency (currency m))
  | OData d => Ok (d_currency d)
  | OValue VUndefined | OValue VNull => Err TypeError
  | OValue _ => Ok VUndefined
  end.

Definition operand_amount (other : operand) : value :=
  match other with
  | OMoney m => VNum (amount m)
  | OData d => d_amount d
  | OValue _ => VUndefined
  end.

(** [m._validateCompatibility(other)] *)
Definition _validateCompatibility (m : Money) (other : operand) : result bool :=
  c <- operand_currency other ;;
  same <- (if Host.truthy c then isIn m c else Ok false) ;;
  if same then Ok true
  else
    message <- ERRORS.currencyMissmatch (currency m) c ;;
    Err (CurrencyMismatch message).

Section Operations.
Context {L : BigNumberLib}.

(** Modelled from the spec: how the collaborator reads an argument of any
    kind. The spec has it work on numbers; a missing or non-numeric
    argument is read as not-a-number. *)
Definition bn_of_value (v : value) : BigNumber :=
  match v with
  | VNum n => bn_new n
  | _ => bn_new S754_nan
  end.

(** [new Money({amount: result, currency: c})] *)
Definition new_Money (result' : Num.number) (c : Currency) : result Money :=
  Constructor
    [AData {| d_amount := VNum result'; d_base := VUndefined;
              d_decimals := None; d_currency := VCurrency c |}].

(** [m.convert(rate, currency)] *)
Definition convert (m : Money) (rate currency' : value) : result Money :=
  (if Host.check_Number rate then Ok tt else Err InvalidRate) ;;;
  c <- Host.check_Currency currency' ;;
  same <- isIn m currency' ;;
  if same then
    Err (SameCurrencyConversion (ERRORS.sameCurrencyConversion (currency m)))
  else
    let result' :=
      bn_toNumber (bn_multiply (bn_new (amount m)) (bn_of_value rate)) in
    c' <- Host.new_Currency currency' ;;
    new_Money result' c'.

(** [m.isEqual(other)]; the collaborator wraps the raw amount itself. *)
Definition isEqual (m : Money) (other : operand) : result bool :=
  _validateCompatibility m other ;;;
  Ok (bn_isEqual (bn_new (amount m)) (bn_of_value (operand_amount other))).

(** [m.isGreaterThan(other)] *)
Definition isGreaterThan (m : Money) (other : operand) : result bool :=
  _validateCompatibility m other ;;;
  Ok (bn_isGreaterThan (bn_new (amount m))
        (bn_of_value (operand_amount other))).

(** [m.isGreaterThanOrEqualTo(other)] *)
Definition isGreaterThanOrEqualTo (m : Money) (other : operand) : result bool :=
  _validateCompatibility m other ;;;
  Ok (bn_isGreaterThanOrEqualTo (bn_new (amount m))
        (bn_of_value (operand_amount other))).

(** [m.isLessThan(other)] *)
Definition isLessThan (m : Money) (other : operand) : result bool :=
  _validateCompatibility m other ;;;
  Ok (bn_isLessThan (bn_new (amount m))
        (bn_of_value (operand_amount other))).

(** [m.isLessThanOrEqualTo(other)] *)
Definition isLessThanOrEqualTo (m : Money) (other : operand) : result bool :=
  _validateCompatibility m other ;;;
  Ok (bn_isLessThanOrEqualTo (bn_new (amount m))
        (bn_of_value (operand_amount other))).

(** [m.add(other)] *)
Definition add (m : Money) (other : operand) : result Money :=
  _validateCompatibility m other ;;;
  let result' :=
    bn_toNumber (bn_add (bn_new (amount m))
                   (bn_of_value (operand_amount other))) in
  new_Money result' (currency m).

(** [m.subtract(other)] *)
Definition subtract (m : Money) (other : operand) : result Money :=
  _validateCompatibility m other ;;;
  let result' :=
    bn_toNumber (bn_subtract (bn_new (amount m))
                   (bn_of_value (operand_amount other))) in
  new_Money result' (currency m).

(** [m.multiply(other)] *)
Definition multiply (m : Money) (other : operand) : result Money :=
  _validateCompatibility m other ;;;
  let result' :=
    bn_toNumber (bn_multiply (bn_new (amount m))
                   (bn_of_value (operand_amount other))) in
  new_Money result' (currency m).

(** [m.divide(other)] *)
Definition divide (m : Money) (other : operand) : result Money :=
  _validateCompatibility m other ;;;
  let result' :=
    bn_toNumber (bn_divide (bn_new (amount m))
                   (bn_of_value (operand_amount other))) in
  new_Money result' (currency m).

(** [m.percentage(percentage)]: no guard and no check of its own. *)
Definition percentage (m : Money) (percentage' : value) : result Money :=
  let result' :=
    bn_toNumber (bn_percentage (bn_new (amount m)) (bn_of_value percentage')) in
  new_Money result' (currency m).

(** [m.delta(other)] *)
Definition delta (m : Money) (other : operand) : result Num.number :=
  _validateCompatibility m other ;;;
  Ok (bn_toNumber (bn_subtract (bn_new (amount m))
                     (bn_of_value (operand_amount other)))).

End Operations.

(** The binary operations as one family, with what each gives back. *)
Inductive binary : Type :=
| Add | Subtract | Multiply | Divide | Delta
| IsEqual | IsGreaterThan | IsGreaterThanOrEqualTo | IsLessThan
| IsLessThanOrEqualTo.

Inductive outcome : Type :=
| RMoney (m : Money)
| RNumber (n : Num.number)
| RBool (b : bool).

Definition run {L : BigNumberLib} (op : binary) (m : Money) (other : operand)
  : result outcome :=
  match op with
  | Add => r <- add m other ;; Ok (RMoney r)
  | Subtract => r <- subtract m other ;; Ok (RMoney r)
  | Multiply => r <- multiply m other ;; Ok (RMoney r)
  | Divide => r <- divide m other ;; Ok (RMoney r)
  | Delta => r <- delta m other ;; Ok (RNumber r)
  | IsEqual => r <- isEqual m other ;; Ok (RBool r)
  | IsGreaterThan => r <- isGreaterThan m other ;; Ok (RBool r)
  | IsGreaterThanOrEqualTo => r <- isGreaterThanOrEqualTo m other ;; Ok (RBool r)
  | IsLessThan => r <- isLessThan m other ;; Ok (RBool r)
  | IsLessThanOrEqualTo => r <- isLessThanOrEqualTo m other ;; Ok (RBool r)
  end.

(** ** The host's [+] *)

Module Plus.

(** [ToPrimitive]: a [Money] answers with its [valueOf]; a [Currency] and a
    plain object have no [valueOf] of their own and answer with their
    string. *)
Definition ToPrimitive (o : operand) : value :=
  match o with
  | OMoney m => VNum (valueOf m)
  | OValue (VCurrency c) => VStr (CurrencyOps.toString c)
  | OValue v => v
  | OData _ => VStr "[object Object]"
  end.

(** [ToNumber] on a primitive that is not a string. *)
Definition ToNumber (v : value) : Num.number :=
  match v with
  | VNum n => n
  | VNull | VBool false => S754_zero false
  | VBool true => Num.of_Z 1
  | _ => S754_nan
  end.

(** [l + r]: both sides to primitives; a string on either side makes it a
    concatenation, anything else an addition of numbers. *)
Definition plus (l r : operand) : value :=
  match ToPrimitive l, ToPrimitive r with
  | VStr a, q => VStr (a ++ Host.ToString q)
  | p, VStr b => VStr (Host.ToString p ++ b)
  | p, q => VNum (Num.add (ToNumber p) (ToNumber q))
  end.

End Plus.

(** * The vocabulary of the properties *)

(** A [Money] some call of the constructor has produced. *)
Definition constructed (m : Money) : Prop :=
  exists arguments, Constructor arguments = Ok m.

(** [needle] occurs in [s]. *)
Definition embeds (needle s : string) : Prop :=
  exists before after, s = before ++ needle ++ after.

(** Whether a result is the currency-mismatch failure. *)
Definition is_mismatch {A : Type} (r : result A) : bool :=
  match r with
  | Err (CurrencyMismatch _) => true
  | _ => false
  end.

(** An operand without a currency: a value, which has no such field, or a
    plain object where it is absent or [null]. *)
Definition lacks_currency (other : operand) : bool :=
  match other with
  | OMoney _ => false
  | OData d =>
      match d_currency d with VUndefined | VNull => true | _ => false end
  | OValue _ => true
  end.

(** The message of the guard for two instances. *)
Definition mismatch_message (m other : Money) : string :=
  "Currency passed '" ++ code (currency other) ++ "' does not match required"
    ++ ERRORS.newline ++ "    '" ++ code (currency m) ++ "'".

(** The value the loop of [_decimalPlaces] tests after [j] scalings. *)
Definition scaled (a : Num.number) (j : Z) : Num.number :=
  if j =? 0 then a else Num.mul a (Num.pow10 j).

(** The loop stops on a value that passes [_isInteger] or is not finite. *)
Definition stops (c : Num.number) : bool :=
  _isInteger c || negb (Num.isFinite c).

(** [base / 10^decimals], as the constructor rebuilds an amount. *)
Definition rebuilt (b : value) (dec : Z) : Num.number :=
  Num.div (Host.parseInt b) (Num.pow10 dec).

(** [new Money({base: m.base, decimals: m.decimals, currency: m.currency})] *)
Definition reconstruct (m : Money) : result Money :=
  Constructor [AData {| d_amount := VUndefined; d_base := VStr (base m);
                        d_decimals := Some (decimals m);
                        d_currency := VCurrency (currency m) |}].

(** The instance the constructor makes of a finite result, and its
    refusal of any other. *)
Definition made (r : Num.number) (c : Currency) : result Money :=
  if Num.isFinite r
  then Ok {| amount := r; base := base_of r (_decimalPlaces r);
             decimals := _decimalPlaces r; currency := c |}
  else Err InvalidAmount.

(** The decimal a positive finite number is printed as, as a rational. *)
Definition reading (m : positive) (e : Z) : Q :=
  let '(s, t) := Conv.decimal_of m e in Conv.decimal_value s t.

(** Exactly one of three booleans holds. *)
Definition exactly_one (x y z : bool) : bool :=
  match x, y, z with
  | true, false, false | false, true, false | false, false, true => true
  | _, _, _ => false
  end.

(** Whether the arguments are a single record that carries base and
    decimals, from which the constructor rebuilds the amount. *)
Definition rebuilds (arguments : list argument) : bool :=
  match arguments with
  | [AData d] =>
      match d_base d, d_decimals d with
      | VUndefined, _ | _, None => false
      | _, Some _ => true
      end
  | _ => false
  end.

(** Whether the amount the constructor works with is a finite number: the
    first argument, or the amount field of a single record, or the amount
    rebuilt from base and decimals. *)
Definition amount_accepted (arguments : list argument) : bool :=
  match arguments with
  | [AData d] =>
      match d_base d, d_decimals d with
      | VUndefined, _ | _, None => Host.check_Number (d_amount d)
      | b, Some dec => Num.isFinite (rebuilt b dec)
      end
  | [AValue (VCurrency _)] => false
  | AValue v :: _ => Host.check_Number v
  | _ => false
  end.

Module Exact.
Import Decimal.
Local Open Scope Q_scope.

(** The number nearest to the exact result of an operation on the
    decimals two numbers are read as. *)
Definition sum (x y : Num.number) : Num.number :=
  to_number (lift2 Qplus (of_number x) (of_number y)).
Definition difference (x y : Num.number) : Num.number :=
  to_number (lift2 Qminus (of_number x) (of_number y)).
Definition product (x y : Num.number) : Num.number :=
  to_number (lift2 Qmult (of_number x) (of_number y)).
(** No number when the divisor is zero. *)
Definition quotient (x y : Num.number) : Num.number :=
  to_number (divide (of_number x) (of_number y)).
Definition percent (x p : Num.number) : Num.number :=
  to_number (lift2 (fun a b => a * b / 100) (of_number x) (of_number p)).
End Exact.

(** ** Concrete numbers and instances *)

(** The number a decimal literal [m * 10^e] denotes. *)
Definition lit (m e : Z) : Num.number :=
  Num.of_decimal (m <? 0) (Z.abs m) e.

Definition EUR : Currency := {| code := "EUR" |}.
Definition USD : Currency := {| code := "USD" |}.

(** [new Money(n)] *)
Definition Money_of (n : Num.number) : result Money :=
  Constructor [AValue (VNum n)].

(** [new Money({amount: n, currency: c})] *)
Definition Money_in (n : Num.number) (c : Currency) : result Money :=
  Constructor [AData {| d_amount := VNum n; d_base := VUndefined;
                        d_decimals := None; d_currency := VCurrency c |}].

(** The instance with the fields given in decimal. *)
Definition money (m e : Z) (b : string) (d : Z) (c : Currency) : Money :=
  {| amount := lit m e; base := b; decimals := d; currency := c |}.

Definition money_0 : Money := money 0 0 "0" 0 EUR.
Definition money_5_5 : Money := money 55 (-1) "55" 1 EUR.
Definition money_1_usd : Money := money 1 0 "1" 0 USD.
Definition money_2_usd : Money := money 2 0 "2" 0 USD.
Definition money_0_1_usd : Money := money 1 (-1) "1" 1 USD.
Definition money_0_2_usd : Money := money 2 (-1) "2" 1 USD.
Definition money_1e308_usd : Money := money 1 308 "Infinity" 1 USD.

(** ** Vocabulary of the further properties *)

(** Whether a value is an instance of [Currency]. *)
Definition is_Currency (v : value) : bool :=
  match v with VCurrency _ => true | _ => false end.

(** Whether a value is a number. *)
Definition is_number (v : value) : bool :=
  match v with VNum _ => true | _ => false end.

(** The record [{amount: a, currency: c}]. *)
Definition record_of (a c : value) : data :=
  {| d_amount := a; d_base := VUndefined; d_decimals := None;
     d_currency := c |}.

(** An operand in which the guard finds no currency: reading the field
    fails, or gives a falsy value. *)
Definition no_currency (other : operand) : bool :=
  match operand_currency other with
  | Ok c => negb (Host.truthy c)
  | Err _ => true
  end.

(** [-n] *)
Definition negated (n : Num.number) : Num.number := SFopp n.

(** What the spec asks of the collaborator's two remaining comparisons:
    on the finite numbers of the host they are the order of the numbers,
    equality included. *)
Class BigNumberNonStrict (L : BigNumberLib) : Prop := {
  bn_isGreaterThanOrEqualTo_spec : forall x y,
    Num.valid x = true -> Num.valid y = true ->
    Num.isFinite x = true -> Num.isFinite y = true ->
    bn_isGreaterThanOrEqualTo (bn_new x) (bn_new y) = SFleb y x;
  bn_isLessThanOrEqualTo_spec : forall x y,
    Num.valid x = true -> Num.valid y = true ->
    Num.isFinite x = true -> Num.isFinite y = true ->
    bn_isLessThanOrEqualTo (bn_new x) (bn_new y) = SFleb x y
}.

(** The message of the guard for a required currency and the string of
    what was passed. *)
Definition mismatch_text (required : Currency) (passed : string) : string :=
  "Currency passed '" ++ passed ++ "' does not match required"
    ++ ERRORS.newline ++ "    '" ++ code required ++ "'".

Definition money_6_usd : Money := money 6 0 "6" 0 USD.
Definition money_3_usd : Money := money 3 0 "3" 0 USD.
Definition money_088_eur : Money := money 88 (-2) "88" 2 EUR.

(** * Properties *)

(** ** The constructor *)

Lemma ValueObject_check_Ok (m m' : Money) :
  ValueObject_check m = Ok m' -> m' = m /\ Num.isFinite (amount m) = true.
Proof.
  unfold ValueObject_check, Host.check_Number.
  destruct (Num.isFinite (amount m)); intros H; inversion H; auto.
Qed.

Lemma ValueObject_check_finite (m : Money) :
  Num.isFinite (amount m) = true -> ValueObject_check m = Ok m.
Proof.
  unfold ValueObject_check, Host.check_Number. now intros ->.
Qed.

(** What every constructed instance satisfies: a finite amount, decimals
    and base derived from it. *)
Lemma Constructor_shape (arguments : list argument) (m : Money) :
  Constructor arguments = Ok m ->
  Num.isFinite (amount m) = true
  /\ decimals m = _decimalPlaces (amount m)
  /\ base m = base_of (amount m) (decimals m).
Proof.
  unfold Constructor.
  destruct (Constructor_data arguments) as [[n c]|e]; cbn [bind]; [|discriminate].
  match goal with |- bind ?r _ = _ -> _ => destruct r as [cur|e] end;
    cbn [bind]; [|discriminate].
  intros H. apply ValueObject_check_Ok in H. destruct H as [-> H].
  cbn [amount decimals base] in *. auto.
Qed.

Lemma constructed_finite (m : Money) :
  constructed m -> Num.isFinite (amount m) = true.
Proof. intros [args H]. now apply Constructor_shape in H. Qed.

(** A result that is a finite number is accepted as a new instance. *)
Lemma new_Money_finite (r : Num.number) (c : Currency) :
  Num.isFinite r = true ->
  new_Money r c
  = Ok {| amount := r; base := base_of r (_decimalPlaces r);
          decimals := _decimalPlaces r; currency := c |}.
Proof.
  intros H. unfold new_Money, Constructor, Constructor_data.
  cbn [d_base d_decimals d_amount d_currency Host.check_Number].
  rewrite H. cbn [bind]. now apply ValueObject_check_finite.
Qed.

Lemma new_Money_not_finite (r : Num.number) (c : Currency) :
  Num.isFinite r = false -> new_Money r c = Err InvalidAmount.
Proof.
  intros H. unfold new_Money, Constructor, Constructor_data.
  cbn [d_base d_decimals d_amount d_currency Host.check_Number].
  now rewrite H.
Qed.

(** ** The derivation of the decimal places *)

Lemma loop_condition (c : Num.number) :
  negb (_isInteger c) && Num.isFinite c = negb (stops c).
Proof. unfold stops. now destruct (_isInteger c), (Num.isFinite c). Qed.

Lemma mul_infinity_not_finite (a : Num.number) :
  Num.isFinite (Num.mul a (S754_infinity false)) = false.
Proof. now destruct a. Qed.

Lemma pow10_309 : Num.pow10 309 = S754_infinity false.
Proof. vm_compute. reflexivity. Qed.

(** From 309 scalings on the value is no longer finite. *)
Lemma stops_at_309 (a : Num.number) : stops (scaled a 309) = true.
Proof.
  unfold stops, scaled. change (309 =? 0) with false. cbv iota.
  rewrite pow10_309, mul_infinity_not_finite. apply orb_true_r.
Qed.

(** The loop, by its invariant [c = scaled a (count - 1)]: it counts on
    while the tested value does not stop it, and when it has fuel left it
    ends on a value that stops it. *)
Lemma loop_spec (a : Num.number) (fuel : nat) :
  forall c count, 1 <= count -> c = scaled a (count - 1) ->
  let r := decimalPlaces_loop fuel a c count in
  count <= r <= count + Z.of_nat fuel
  /\ (forall j, count - 1 <= j < r - 1 -> stops (scaled a j) = false)
  /\ (r < count + Z.of_nat fuel -> stops (scaled a (r - 1)) = true).
Proof.
  induction fuel as [|fuel IH]; intros c count Hc Hinv; cbn zeta.
  - cbn [decimalPlaces_loop]. rewrite loop_condition.
    destruct (stops c) eqn:Hs; cbn [negb]; (split; [lia|split; [intros; lia|]]).
    + intros _. now rewrite <- Hinv.
    + intros; lia.
  - cbn [decimalPlaces_loop]. rewrite loop_condition.
    destruct (stops c) eqn:Hs; cbn [negb].
    + split; [lia|split; [intros; lia|]]. intros _. now rewrite <- Hinv.
    + assert (Hnext : Num.mul a (Num.pow10 count) = scaled a (count + 1 - 1)).
      { unfold scaled. replace (count + 1 - 1) with count by lia.
        destruct (Z.eqb_spec count 0); [lia|reflexivity]. }
      specialize (IH _ (count + 1) ltac:(lia) Hnext). cbn zeta in IH.
      destruct IH as (Hr & Hbefore & Hat).
      split; [lia|split].
      * intros j Hj. destruct (Z.eq_dec j (count - 1)) as [->|Hne].
        -- now rewrite <- Hinv.
        -- apply Hbefore. lia.
      * intros Hlt. apply Hat. lia.
Qed.

(** The loop of [_decimalPlaces] ends on its own: within 309 scalings, so
    the 310 iterations allowed are never used up, and more change nothing. *)
Lemma decimalPlaces_loop_ends (a : Num.number) (fuel : nat) :
  (310 <= fuel)%nat ->
  let r := decimalPlaces_loop fuel a a 1 in
  1 <= r <= 310
  /\ (forall j, 0 <= j < r - 1 -> stops (scaled a j) = false)
  /\ stops (scaled a (r - 1)) = true.
Proof.
  intros Hfuel. cbn zeta.
  destruct (loop_spec a fuel a 1 ltac:(lia) eq_refl) as (Hr & Hbefore & Hat).
  assert (Hle : decimalPlaces_loop fuel a a 1 <= 310).
  { destruct (Z_le_gt_dec (decimalPlaces_loop fuel a a 1) 310) as [|Hgt]; [assumption|].
    pose proof (Hbefore 309 ltac:(lia)) as H. now rewrite stops_at_309 in H. }
  split; [lia|split].
  - intros j Hj. apply Hbefore. lia.
  - apply Hat. lia.
Qed.

Lemma decimalPlaces_loop_fuel (a : Num.number) (fuel : nat) :
  (310 <= fuel)%nat ->
  decimalPlaces_loop fuel a a 1 = decimalPlaces_loop 310 a a 1.
Proof.
  intros Hfuel.
  destruct (decimalPlaces_loop_ends a fuel Hfuel) as (Hr & Hb & Hs).
  destruct (decimalPlaces_loop_ends a 310 (le_n _)) as (Hr' & Hb' & Hs').
  cbn zeta in *.
  set (r := decimalPlaces_loop fuel a a 1) in *.
  set (r' := decimalPlaces_loop 310 a a 1) in *.
  destruct (Z.lt_trichotomy r r') as [Hlt|[Heq|Hgt]]; [|assumption|].
  - rewrite (Hb' (r - 1)) in Hs by lia. discriminate.
  - rewrite (Hb (r' - 1)) in Hs' by lia. discriminate.
Qed.

(** [_decimalPlaces] by what it computes: the least count [k] of scalings at
    which the loop stops, capped at 20. *)
Lemma decimalPlaces_spec (n : Num.number) :
  exists k, 0 <= k <= 309
    /\ _decimalPlaces n = Z.min k 20
    /\ stops (scaled (Num.abs n) k) = true
    /\ (forall j, 0 <= j < k -> stops (scaled (Num.abs n) j) = false).
Proof.
  destruct (decimalPlaces_loop_ends (Num.abs n) 310 (le_n _)) as (Hr & Hb & Hs).
  cbn zeta in *.
  exists (decimalPlaces_loop 310 (Num.abs n) (Num.abs n) 1 - 1).
  repeat split; try lia; try assumption.
Qed.

Lemma decimalPlaces_range (n : Num.number) : 0 <= _decimalPlaces n <= 20.
Proof. destruct (decimalPlaces_spec n) as (k & Hk & -> & _). lia. Qed.

(** ** C2: the fields of a constructed instance *)

(** C2: the code breaks the claim at [new Money(3.2319999999999998)] (the
    host's own [32.32 * 10 / 100]). The amount has sixteen decimal places,
    but scaled by 10^5 in the host's arithmetic it rounds to 323200, which
    passes the integer test: [_decimalPlaces] answers 5, the base becomes
    "323200", and [323200 / 10^5] is 3.232, another number than the
    amount. *)
Theorem fields_inconsistent_example :
  let n := lit 32319999999999998 (-16) in
  Conv.toString n = "3.2319999999999998"
  /\ Num.mul (Num.abs n) (Num.pow10 5) = lit 323200 0
  /\ _isInteger (Num.mul (Num.abs n) (Num.pow10 5)) = true
  /\ _decimalPlaces n = 5
  /\ exists m,
      Money_of n = Ok m
      /\ decimals m = 5 /\ base m = "323200"
      /\ rebuilt (VStr (base m)) (decimals m) = lit 3232 (-3)
      /\ Num.eqb (amount m) (rebuilt (VStr (base m)) (decimals m)) = false.
Proof.
  cbn zeta.
  split; [vm_compute; reflexivity|].
  split; [vm_compute; reflexivity|].
  split; [vm_compute; reflexivity|].
  split; [vm_compute; reflexivity|].
  eexists. split; [vm_compute; reflexivity|].
  repeat split; vm_compute; reflexivity.
Qed.

(** ** C6 and C5: construction from base and decimals *)

(** The constructor on a plain object that carries base and decimals. *)
Lemma Constructor_base_path (d : data) (dec : Z) :
  d_base d <> VUndefined -> d_decimals d = Some dec ->
  Constructor [AData d]
  = (cur <- match d_currency d with
            | VCurrency cur => Ok cur
            | c => Host.new_Currency
                     (if Host.truthy c then c else VStr DEFAULT_CURRENCY)
            end ;;
     let n := rebuilt (d_base d) dec in
     ValueObject_check
       {| amount := n; base := base_of n (_decimalPlaces n);
          decimals := _decimalPlaces n; currency := cur |}).
Proof.
  intros Hb Hd. unfold Constructor, Constructor_data. rewrite Hd.
  destruct (d_base d); try contradiction; cbn [bind];
    destruct (d_currency d); reflexivity.
Qed.

(** C6, as stated, fails: [new Money({base: "10", decimals: 1})] stores
    decimals 0 and base "1", not the decimals 1 it was given. *)
Lemma decimals_rederived_example :
  exists m,
    Constructor [AData {| d_amount := VUndefined; d_base := VStr "10";
                          d_decimals := Some 1; d_currency := VUndefined |}]
    = Ok m
    /\ decimals m = 0 /\ base m = "1" /\ decimals m <> 1.
Proof.
  eexists. split; [vm_compute; reflexivity|].
  repeat split; vm_compute; congruence.
Qed.

(** C6, amended: when a Money is constructed from a record containing base
    and decimals, amount is computed as base / 10^decimals, and the decimals
    and base of the instance are then derived from that amount by the same
    derivation as for an amount given directly; the supplied decimals is not
    stored. When that amount is finite the instance is the one constructed
    from the amount and the currency alone. *)
Theorem base_path_rederives (d : data) (dec : Z) :
  d_base d <> VUndefined -> d_decimals d = Some dec ->
  (forall m, Constructor [AData d] = Ok m ->
     amount m = rebuilt (d_base d) dec
     /\ decimals m = _decimalPlaces (amount m)
     /\ base m = base_of (amount m) (decimals m))
  /\ (Num.isFinite (rebuilt (d_base d) dec) = true ->
      Constructor [AData d]
      = Constructor [AData {| d_amount := VNum (rebuilt (d_base d) dec);
                              d_base := VUndefined; d_decimals := None;
                              d_currency := d_currency d |}]).
Proof.
  intros Hb Hd. split.
  - intros m H. pose proof (Constructor_shape _ _ H) as (_ & Hdec & Hbase).
    rewrite (Constructor_base_path d dec Hb Hd) in H.
    match type of H with bind ?r _ = _ => destruct r as [cur|e] end;
      cbn [bind] in H; [|discriminate].
    cbn zeta in H. apply ValueObject_check_Ok in H. destruct H as [-> _].
    cbn [amount decimals base] in *. auto.
  - intros Hfin. rewrite (Constructor_base_path d dec Hb Hd).
    unfold Constructor, Constructor_data.
    cbn [d_base d_decimals d_amount d_currency Host.check_Number].
    rewrite Hfin. cbn [bind]. destruct (d_currency d); reflexivity.
Qed.

Lemma base_path_rederives_witness :
  let d := {| d_amount := VUndefined; d_base := VNum (lit 9999 0);
              d_decimals := Some 3; d_currency := VUndefined |} in
  Constructor [AData d] = Money_of (lit 9999 (-3))
  /\ Constructor [AData d]
     = Ok {| amount := lit 9999 (-3); base := "9999"; decimals := 3;
             currency := EUR |}.
Proof.
  intros d.
  assert (Hb : d_base d <> VUndefined) by (cbn; discriminate).
  destruct (base_path_rederives d 3 Hb eq_refl) as [_ H].
  split.
  - rewrite H by (vm_compute; reflexivity). vm_compute. reflexivity.
  - vm_compute. reflexivity.
Defined.

(** C5: the code breaks the round trip at [new Money(3.2319999999999998)]:
    the instance has base "323200" and decimals 5, and the instance built
    from the record of its base, decimals and currency has amount 3.232,
    another number. *)
Theorem roundtrip_fails_example :
  exists m m',
    Money_of (lit 32319999999999998 (-16)) = Ok m
    /\ base m = "323200" /\ decimals m = 5
    /\ reconstruct m = Ok m'
    /\ amount m' = lit 3232 (-3)
    /\ Num.eqb (amount m') (amount m) = false.
Proof.
  do 2 eexists. split; [vm_compute; reflexivity|].
  split; [vm_compute; reflexivity|].
  split; [vm_compute; reflexivity|].
  split; [vm_compute; reflexivity|].
  split; vm_compute; reflexivity.
Qed.

(** ** C3 and C8: the compatibility guard *)

Section Guard.
Context {L : BigNumberLib}.

Lemma validate_Money (m other : Money) :
  _validateCompatibility m (OMoney other)
  = if CurrencyOps.equals (currency m) (currency other) then Ok true
    else Err (CurrencyMismatch (mismatch_message m other)).
Proof.
  unfold _validateCompatibility, isIn. cbn.
  now destruct (CurrencyOps.equals (currency m) (currency other)).
Qed.

Lemma validate_lacking (m : Money) (other : operand) :
  lacks_currency other = true ->
  _validateCompatibility m other = Err TypeError.
Proof.
  unfold _validateCompatibility.
  destruct other as [o|v|d]; cbn; [discriminate| |].
  - intros _. now destruct v.
  - destruct (d_currency d); cbn; try discriminate; reflexivity.
Qed.

(** One case per operation, each opened up to its call of the guard. *)
Ltac each_operation op :=
  destruct op; cbn [run];
  unfold add, subtract, multiply, divide, delta, isEqual, isGreaterThan,
    isGreaterThanOrEqualTo, isLessThan, isLessThanOrEqualTo.

(** Every binary operation starts with the guard. *)
Lemma run_guard_fails (op : binary) (m : Money) (other : operand) (e : error) :
  _validateCompatibility m other = Err e -> run op m other = Err e.
Proof. intros H. each_operation op; rewrite H; reflexivity. Qed.

Lemma new_Money_no_mismatch (r : Num.number) (c : Currency) :
  is_mismatch (x <- new_Money r c ;; Ok (RMoney x)) = false.
Proof.
  destruct (Num.isFinite r) eqn:H.
  - now rewrite new_Money_finite.
  - now rewrite new_Money_not_finite.
Qed.

Lemma run_guard_passes (op : binary) (m : Money) (other : operand) (b : bool) :
  _validateCompatibility m other = Ok b ->
  is_mismatch (run op m other) = false.
Proof.
  intros H.
  each_operation op; rewrite H; cbn [bind];
    try reflexivity; apply new_Money_no_mismatch.
Qed.

Lemma append_assoc (s1 s2 s3 : string) :
  (s1 ++ s2) ++ s3 = s1 ++ s2 ++ s3.
Proof. induction s1 as [|c s1 IH]; cbn; [reflexivity|now rewrite IH]. Qed.

Lemma embeds_intro (before needle after : string) :
  embeds needle (before ++ needle ++ after).
Proof. now exists before, after. Qed.

Lemma mismatch_message_embeds (m other : Money) :
  embeds (code (currency m)) (mismatch_message m other)
  /\ embeds (code (currency other)) (mismatch_message m other).
Proof.
  unfold mismatch_message. split.
  - exists ("Currency passed '" ++ code (currency other)
            ++ "' does not match required" ++ ERRORS.newline ++ "    '"), "'".
    now rewrite !append_assoc.
  - apply embeds_intro.
Qed.

(** C3: for two Money values whose currencies differ by value, every
    binary operation (add, subtract, multiply, divide, delta and the five
    comparisons) raises the currency-mismatch error, whose message embeds
    the codes of both currencies; when the currencies are equal by value
    no operation raises that error. *)
Theorem currency_guard (op : binary) (m other : Money) :
  if CurrencyOps.equals (currency m) (currency other)
  then is_mismatch (run op m (OMoney other)) = false
  else exists message,
      run op m (OMoney other) = Err (CurrencyMismatch message)
      /\ embeds (code (currency m)) message
      /\ embeds (code (currency other)) message.
Proof.
  pose proof (validate_Money m other) as H.
  destruct (CurrencyOps.equals (currency m) (currency other)).
  - now apply run_guard_passes with (b := true).
  - exists (mismatch_message m other). split.
    + now apply run_guard_fails.
    + apply mismatch_message_embeds.
Qed.

Lemma lacks_no_currency (other : operand) :
  lacks_currency other = true -> no_currency other = true.
Proof.
  unfold no_currency.
  destruct other as [o|v|d]; cbn; [discriminate| |].
  - intros _. now destruct v.
  - now destruct (d_currency d).
Qed.

(** With no currency to compare, the guard fails, and with the
    currency-mismatch error where the message can be built. *)
Lemma validate_no_currency (m : Money) (other : operand) :
  no_currency other = true ->
  exists e,
    _validateCompatibility m other = Err e
    /\ forall c printed,
        operand_currency other = Ok c -> Host.toString c = Ok printed ->
        e = CurrencyMismatch (mismatch_text (currency m) printed).
Proof.
  unfold no_currency, _validateCompatibility.
  destruct (operand_currency other) as [c|e]; cbn [bind].
  - intros Hc. apply negb_true_iff in Hc. rewrite Hc. cbn [bind].
    unfold ERRORS.currencyMissmatch.
    destruct (Host.toString c) as [printed|e] eqn:Hp; cbn [bind].
    + eexists. split; [reflexivity|].
      intros c' printed' Hc' Hp'. inversion Hc'. subst c'.
      rewrite Hp in Hp'. inversion Hp'. reflexivity.
    + exists e. split; [reflexivity|].
      intros c' printed' Hc' Hp'. inversion Hc'. subst c'.
      rewrite Hp in Hp'. discriminate.
  - intros _. exists e. split; [reflexivity|]. intros c printed Hc. discriminate.
Qed.

(** C8, amended: for every binary operation, when the argument is not
    Money-shaped (it has no currency field, or the field is undefined,
    null or another falsy value) the operation raises an error in the
    compatibility guard and gives no result. The source has no error kind
    of its own for such an argument: where the falsy currency has a string
    (false, 0, NaN, the empty string) the error is the currency-mismatch
    error, with that string in its message. *)
Theorem operand_not_Money_shaped (op : binary) (m : Money) (other : operand) :
  no_currency other = true ->
  exists e,
    run op m other = Err e
    /\ _validateCompatibility m other = Err e
    /\ forall c printed,
        operand_currency other = Ok c -> Host.toString c = Ok printed ->
        e = CurrencyMismatch (mismatch_text (currency m) printed).
Proof.
  intros H. destruct (validate_no_currency m other H) as (e & He & Hk).
  exists e. split; [now apply run_guard_fails|]. split; assumption.
Qed.

End Guard.

(** C8, as stated, fails: a plain object with the empty string for a
    currency is refused with the currency-mismatch error itself, and a
    number for an operand with the host's TypeError, raised while the
    message of the currency mismatch is put together. *)
Lemma operand_kind_example :
  no_currency (OData (record_of (VNum (lit 1 0)) (VStr ""))) = true
  /\ run (L := decimal_BigNumber) IsEqual money_1_usd
       (OData (record_of (VNum (lit 1 0)) (VStr "")))
     = Err (CurrencyMismatch (mismatch_text USD ""))
  /\ lacks_currency (OValue (VNum (lit 1 0))) = true
  /\ run (L := decimal_BigNumber) Add money_0 (OValue (VNum (lit 1 0)))
     = Err TypeError
  /\ ERRORS.currencyMissmatch (currency money_0) VUndefined = Err TypeError.
Proof. repeat split. Qed.

Lemma operand_not_Money_shaped_witness :
  exists e,
    run (L := decimal_BigNumber) Add money_1_usd
      (OData (record_of (VNum (lit 2 0)) (VBool false))) = Err e
    /\ _validateCompatibility money_1_usd
         (OData (record_of (VNum (lit 2 0)) (VBool false))) = Err e
    /\ forall c printed,
        operand_currency (OData (record_of (VNum (lit 2 0)) (VBool false)))
        = Ok c ->
        Host.toString c = Ok printed ->
        e = CurrencyMismatch (mismatch_text (currency money_1_usd) printed).
Proof.
  apply (operand_not_Money_shaped (L := decimal_BigNumber) Add money_1_usd
           (OData (record_of (VNum (lit 2 0)) (VBool false)))).
  reflexivity.
Defined.

(** ** C10: the value of an instance *)

(** C10: every Money defines valueOf() returning its amount, so a Money
    coerces to its amount in the host's arithmetic: for every Money m and
    number n, m + n is m.amount + n. *)
Theorem valueOf_amount (m : Money) (n : Num.number) :
  valueOf m = amount m
  /\ Plus.plus (OMoney m) (OValue (VNum n)) = VNum (Num.add (amount m) n).
Proof. split; reflexivity. Qed.

(** The test of the suite: [new Money(5) + 5] is 10. *)
Example five_plus_five :
  exists m,
    Money_of (lit 5 0) = Ok m
    /\ Plus.plus (OMoney m) (OValue (VNum (lit 5 0))) = VNum (lit 10 0).
Proof. eexists. split; vm_compute; reflexivity. Qed.

(** ** The order of the printed decimals *)

Module ReadingOrder.
Import Num Conv.

Lemma digits2_pos_bounds (m : positive) :
  2 ^ (Zpos (digits2_pos m) - 1) <= Zpos m < 2 ^ Zpos (digits2_pos m).
Proof.
  induction m as [m IH|m IH|]; cbn [digits2_pos].
  - rewrite Pos2Z.inj_succ.
    replace (Z.succ (Zpos (digits2_pos m)) - 1) with (Z.succ (Zpos (digits2_pos m) - 1)) by lia.
    rewrite !Z.pow_succ_r by lia. lia.
  - rewrite Pos2Z.inj_succ.
    replace (Z.succ (Zpos (digits2_pos m)) - 1) with (Z.succ (Zpos (digits2_pos m) - 1)) by lia.
    rewrite !Z.pow_succ_r by lia. lia.
  - cbn. lia.
Qed.

(** A canonical significand and exponent. *)
Lemma bounded_bounds (m : positive) (e : Z) :
  bounded prec emax m e = true ->
  -1074 <= e <= 971 /\ Zpos m < 2 ^ 53 /\ (-1074 < e -> 2 ^ 52 <= Zpos m).
Proof.
  unfold bounded, canonical_mantissa, fexp, emin, prec, emax.
  intros H. apply andb_true_iff in H. destruct H as [Hc He].
  apply Z.eqb_eq in Hc. apply Z.leb_le in He.
  pose proof (digits2_pos_bounds m) as Hd.
  set (d := Zpos (digits2_pos m)) in *.
  assert (Hdpos : 1 <= d) by (unfold d; lia).
  assert (Hd53 : d <= 53) by lia.
  split; [lia|]. split.
  - assert (2 ^ d <= 2 ^ 53) by (apply Z.pow_le_mono_r; lia). lia.
  - intros Hlt. assert (d = 53) by lia. subst d.
    replace (2 ^ 52) with (2 ^ (Zpos (digits2_pos m) - 1)) by (rewrite H; reflexivity).
    lia.
Qed.

Local Open Scope Q_scope.

Lemma pow2_pos (z : Z) : 0 < (2 # 1) ^ z.
Proof. apply Qpower_0_lt. reflexivity. Qed.

Lemma pow2_split (e e' : Z) :
  (e <= e')%Z ->
  (2 # 1) ^ (e' - 2) == inject_Z (2 ^ (e' - e)) * (2 # 1) ^ (e - 2).
Proof.
  intros H. replace (e' - 2)%Z with ((e' - e) + (e - 2))%Z by lia.
  rewrite Qpower_plus by discriminate.
  rewrite Zpower_Qpower by lia. reflexivity.
Qed.

(** What [reads_as] accepts. *)
Lemma reads_as_bounds (m : positive) (e : Z) (c : Q) :
  reads_as m e c = true ->
  (lower m e < c \/ (lower m e == c /\ Z.even (Zpos m) = true))
  /\ (c < upper m e \/ (c == upper m e /\ Z.even (Zpos m) = true)).
Proof.
  unfold reads_as.
  destruct (lower m e ?= c) eqn:Hl; destruct (c ?= upper m e) eqn:Hu;
    try discriminate; intros H.
  - apply Qeq_alt in Hl. apply Qlt_alt in Hu. auto.
  - apply Qlt_alt in Hl. apply Qeq_alt in Hu. auto.
  - apply Qlt_alt in Hl. apply Qlt_alt in Hu. auto.
Qed.

(** The integers behind the bounds of two ordered canonical numbers. *)
Lemma bounds_ordered (m m' : positive) (e e' : Z) :
  bounded prec emax m e = true -> bounded prec emax m' e' = true ->
  (e < e' \/ (e = e' /\ Zpos m < Zpos m'))%Z ->
  let A := (4 * Zpos m + 2)%Z in
  let B := ((4 * Zpos m'
             - (if (Zpos m' =? 2 ^ 52)%Z && (-1074 <? e')%Z then 1 else 2))
            * 2 ^ (e' - e))%Z in
  (A <= B)%Z
  /\ (A = B -> Z.even (Zpos m) = true -> Z.even (Zpos m') = true -> False).
Proof.
  intros Hb Hb' Hlt.
  apply bounded_bounds in Hb. apply bounded_bounds in Hb'.
  destruct Hb as (He & Hm & Hn). destruct Hb' as (He' & Hm' & Hn').
  cbn zeta.
  destruct Hlt as [Hlt|[-> Hlt]].
  - (* a higher binade *)
    specialize (Hn' ltac:(lia)).
    assert (Hk : (2 <= 2 ^ (e' - e))%Z).
    { change 2%Z with (2 ^ 1)%Z at 1. apply Z.pow_le_mono_r; lia. }
    assert (Hfalse : Z.even (2 ^ 53 - 1) = false) by reflexivity.
    destruct (Z.eqb_spec (Zpos m') (2 ^ 52)) as [Heq|Hne]; cbn [andb].
    + replace (-1074 <? e')%Z with true by (symmetry; apply Z.ltb_lt; lia).
      rewrite Heq.
      assert (((4 * 2 ^ 52 - 1) * 2 <= (4 * 2 ^ 52 - 1) * 2 ^ (e' - e))%Z)
        by (apply Z.mul_le_mono_nonneg_l; lia).
      split; [lia|].
      intros HAB Hev _.
      assert (Zpos m = 2 ^ 53 - 1)%Z by lia.
      rewrite H0 in Hev. rewrite Hfalse in Hev. discriminate.
    + assert (((4 * Zpos m' - 2) * 2 <= (4 * Zpos m' - 2) * 2 ^ (e' - e))%Z)
        by (apply Z.mul_le_mono_nonneg_l; lia).
      split; [lia|]. intros HAB. exfalso. lia.
  - (* the same binade *)
    replace (e' - e')%Z with 0%Z by lia. rewrite Z.pow_0_r, Z.mul_1_r.
    destruct (Z.eqb_spec (Zpos m') (2 ^ 52)) as [Heq|Hne]; cbn [andb].
    + destruct (Z.ltb_spec (-1074) e') as [Hgt|Hle].
      * specialize (Hn Hgt). exfalso. lia.
      * split; [lia|]. intros HAB Hev Hev'.
        assert (Zpos m' = Zpos m + 1)%Z by lia.
        rewrite H, Z.even_add in Hev'. rewrite Hev in Hev'. discriminate.
    + split; [lia|]. intros HAB Hev Hev'.
      assert (Zpos m' = Zpos m + 1)%Z by lia.
      rewrite H, Z.even_add in Hev'. rewrite Hev in Hev'. discriminate.
Qed.

(** Two numbers that read as two ordered canonical numbers are ordered the
    same way. *)
Lemma reads_as_ordered (m m' : positive) (e e' : Z) (c c' : Q) :
  bounded prec emax m e = true -> bounded prec emax m' e' = true ->
  (e < e' \/ (e = e' /\ Zpos m < Zpos m'))%Z ->
  reads_as m e c = true -> reads_as m' e' c' = true ->
  c < c'.
Proof.
  intros Hb Hb' Hlt Hc Hc'.
  destruct (bounds_ordered m m' e e' Hb Hb' Hlt) as [HAB Hpar].
  cbn zeta in HAB, Hpar.
  set (A := (4 * Zpos m + 2)%Z) in *.
  set (d' := if (Zpos m' =? 2 ^ 52)%Z && (-1074 <? e')%Z then 1%Z else 2%Z) in *.
  set (B := ((4 * Zpos m' - d') * 2 ^ (e' - e))%Z) in *.
  assert (Hle : (e <= e')%Z) by lia.
  assert (HU : upper m e == inject_Z A * (2 # 1) ^ (e - 2)) by reflexivity.
  assert (HL : lower m' e' == inject_Z B * (2 # 1) ^ (e - 2)).
  { unfold lower. fold d'. rewrite (pow2_split e e' Hle).
    unfold B. rewrite inject_Z_mult. ring. }
  pose proof (pow2_pos (e - 2)) as HP.
  assert (HUL : upper m e <= lower m' e').
  { rewrite HU, HL. apply Qmult_le_compat_r; [|now apply Qlt_le_weak].
    now rewrite <- Zle_Qle. }
  assert (HULs : (A < B)%Z -> upper m e < lower m' e').
  { intros H. rewrite HU, HL. apply Qmult_lt_compat_r; [assumption|].
    now rewrite <- Zlt_Qlt. }
  apply reads_as_bounds in Hc. destruct Hc as [_ Hc].
  apply reads_as_bounds in Hc'. destruct Hc' as [Hc' _].
  destruct Hc as [Hc|[Hc Hev]].
  - apply Qlt_le_trans with (upper m e); [assumption|].
    apply Qle_trans with (lower m' e'); [assumption|].
    destruct Hc' as [Hc'|[Hc' _]]; [now apply Qlt_le_weak|].
    rewrite Hc'. apply Qle_refl.
  - rewrite Hc. destruct Hc' as [Hc'|[Hc' Hev']].
    + now apply Qle_lt_trans with (lower m' e').
    + rewrite <- Hc'. apply HULs.
      destruct (Z.eq_dec A B) as [Heq|Hne]; [|lia].
      exfalso. now apply Hpar.
Qed.

Lemma reads_as_Qeq (m : positive) (e : Z) (c c' : Q) :
  c == c' -> reads_as m e c = reads_as m e c'.
Proof.
  intros H. unfold reads_as.
  rewrite (Qcompare_comp _ _ (Qeq_refl (lower m e)) c c' H).
  rewrite (Qcompare_comp c c' H _ _ (Qeq_refl (upper m e))).
  reflexivity.
Qed.

Lemma ten_split : (10 # 1) == (2 # 1) * (5 # 1).
Proof. reflexivity. Qed.

(** The value of the number itself, written in decimal. *)
Lemma exact_decimal_value (m : positive) (e : Z) :
  (let '(s, t) := exact_decimal m e in decimal_value s t)
  == inject_Z (Zpos m) * (2 # 1) ^ e.
Proof.
  unfold exact_decimal, decimal_value. destruct e as [|p|p].
  - change (2 ^ 0)%Z with 1%Z. rewrite Z.mul_1_r. reflexivity.
  - rewrite inject_Z_mult. rewrite Zpower_Qpower by (apply Pos2Z.is_nonneg).
    change (inject_Z 2) with (2 # 1). change ((10 # 1) ^ 0) with 1. ring.
  - rewrite inject_Z_mult. rewrite Zpower_Qpower by (apply Pos2Z.is_nonneg).
    change (Zneg p) with (- Zpos p)%Z. rewrite !Qpower_opp.
    rewrite ten_split, Qmult_power. change (inject_Z 5) with (5 # 1).
    field. split; apply Qpower_not_0; discriminate.
Qed.

Lemma value_in_quarters (m : positive) (e : Z) :
  inject_Z (Zpos m) * (2 # 1) ^ e
  == inject_Z (4 * Zpos m) * (2 # 1) ^ (e - 2).
Proof.
  replace e with (2 + (e - 2))%Z at 1 by lia.
  rewrite Qpower_plus by discriminate.
  rewrite inject_Z_mult. change ((2 # 1) ^ 2) with (inject_Z 4). ring.
Qed.

(** A number reads as itself. *)
Lemma reads_as_itself (m : positive) (e : Z) (c : Q) :
  c == inject_Z (Zpos m) * (2 # 1) ^ e -> reads_as m e c = true.
Proof.
  intros Hc. rewrite (reads_as_Qeq m e c _ Hc), (reads_as_Qeq m e _ _ (value_in_quarters m e)).
  pose proof (pow2_pos (e - 2)) as HP.
  unfold reads_as, lower, upper.
  set (d := if (Zpos m =? 2 ^ 52)%Z && (-1074 <? e)%Z then 1%Z else 2%Z).
  assert (Hd : (0 < d)%Z) by (unfold d; destruct (_ && _); lia).
  assert (Hl : inject_Z (4 * Zpos m - d) * (2 # 1) ^ (e - 2)
               < inject_Z (4 * Zpos m) * (2 # 1) ^ (e - 2)).
  { apply Qmult_lt_compat_r; [assumption|]. rewrite <- Zlt_Qlt. lia. }
  assert (Hu : inject_Z (4 * Zpos m) * (2 # 1) ^ (e - 2)
               < inject_Z (4 * Zpos m + 2) * (2 # 1) ^ (e - 2)).
  { apply Qmult_lt_compat_r; [assumption|]. rewrite <- Zlt_Qlt. lia. }
  assert (Hl' : (inject_Z (4 * Zpos m - d) * (2 # 1) ^ (e - 2)
                 ?= inject_Z (4 * Zpos m) * (2 # 1) ^ (e - 2)) = Lt)
    by (now apply Qlt_alt).
  assert (Hu' : (inject_Z (4 * Zpos m) * (2 # 1) ^ (e - 2)
                 ?= inject_Z (4 * Zpos m + 2) * (2 # 1) ^ (e - 2)) = Lt)
    by (now apply Qlt_alt).
  now rewrite Hl', Hu'.
Qed.

Lemma shortest_reads (fuel : nat) (m : positive) (e : Z) (a : Z)
      (b : positive) (n : Z) :
  forall k,
    reads_as m e (let '(s, t) := shortest fuel m e a b n k in decimal_value s t)
    = true.
Proof.
  induction fuel as [|fuel IH]; intros k.
  - cbn [shortest]. apply reads_as_itself. apply exact_decimal_value.
  - cbn [shortest]. cbv zeta.
    match goal with
    | |- context [(0 <? ?lo)%Z && reads_as m e (decimal_value ?lo ?t)] =>
        destruct ((0 <? lo)%Z && reads_as m e (decimal_value lo t)) eqn:Hlo;
        destruct (reads_as m e (decimal_value (lo + 1) t)) eqn:Hhi
    end.
    + apply andb_true_iff in Hlo. destruct Hlo as [_ Hlo].
      match goal with |- context [(?x ?= ?y)%Z] => destruct (x ?= y)%Z end;
        try assumption.
      match goal with |- context [Z.even ?x] => destruct (Z.even x) end;
        assumption.
    + apply andb_true_iff in Hlo. now destruct Hlo.
    + assumption.
    + apply IH.
Qed.

Lemma strip_zeros_value (fuel : nat) :
  forall s t,
    (let '(s', t') := strip_zeros fuel s t in decimal_value s' t')
    == decimal_value s t.
Proof.
  induction fuel as [|fuel IH]; intros s t; cbn [strip_zeros]; [reflexivity|].
  destruct ((0 <? s)%Z && (s mod 10 =? 0)%Z) eqn:H; [|reflexivity].
  apply andb_true_iff in H. destruct H as [_ H]. apply Z.eqb_eq in H.
  rewrite IH. unfold decimal_value.
  rewrite Qpower_plus by discriminate.
  apply Z.div_exact in H; [|lia].
  rewrite H at 2. rewrite inject_Z_mult.
  change ((10 # 1) ^ 1) with (inject_Z 10). ring.
Qed.

(** The decimal a positive finite number is printed as reads as it. *)
Lemma decimal_of_reads (m : positive) (e : Z) :
  reads_as m e (let '(s, t) := decimal_of m e in decimal_value s t) = true.
Proof.
  unfold decimal_of. destruct (magnitude m e) as [a b].
  cbv zeta.
  pose proof (shortest_reads 1100 m e a b
                (decimal_exponent 8 a b ((Z.log2 a - Z.log2 (Zpos b)) * 30103 / 100000)) 1) as H.
  destruct (shortest _ m e a b _ 1) as [s t].
  pose proof (strip_zeros_value 1100 s t) as Hs.
  destruct (strip_zeros 1100 s t) as [s' t'].
  now rewrite (reads_as_Qeq m e _ _ Hs).
Qed.

Lemma lower_pos (m : positive) (e : Z) : 0 < lower m e.
Proof.
  unfold lower.
  set (d := if (Zpos m =? 2 ^ 52)%Z && (-1074 <? e)%Z then 1%Z else 2%Z).
  assert (Hd : (d <= 2)%Z) by (unfold d; destruct (_ && _); lia).
  apply Qmult_lt_0_compat; [|apply pow2_pos].
  change 0 with (inject_Z 0). rewrite <- Zlt_Qlt. lia.
Qed.

Lemma reading_pos (m : positive) (e : Z) : 0 < reading m e.
Proof.
  pose proof (decimal_of_reads m e) as H. fold (reading m e) in H.
  apply reads_as_bounds in H. destruct H as [[H|[H _]] _].
  - apply Qlt_trans with (lower m e); [apply lower_pos|assumption].
  - rewrite <- H. apply lower_pos.
Qed.

(** The printed decimals of two canonical positive numbers are ordered as
    the numbers are: by exponent, then by significand. *)
Lemma reading_compare (m m' : positive) (e e' : Z) :
  bounded prec emax m e = true -> bounded prec emax m' e' = true ->
  (reading m e ?= reading m' e')
  = match (e ?= e')%Z with
    | Lt => Lt
    | Gt => Gt
    | Eq => (m ?= m')%positive
    end.
Proof.
  intros Hb Hb'.
  pose proof (decimal_of_reads m e) as Hr. fold (reading m e) in Hr.
  pose proof (decimal_of_reads m' e') as Hr'. fold (reading m' e') in Hr'.
  destruct (Z.compare_spec e e') as [Heq|Hlt|Hgt].
  - subst e'. destruct (Pos.compare_spec m m') as [Hm|Hm|Hm].
    + subst m'. apply Qeq_alt. reflexivity.
    + apply Qlt_alt. apply (reads_as_ordered m m' e e); auto.
    + apply Qgt_alt. apply (reads_as_ordered m' m e e); auto.
  - apply Qlt_alt. apply (reads_as_ordered m m' e e'); auto.
  - apply Qgt_alt. apply (reads_as_ordered m' m e' e); auto.
Qed.

Lemma of_number_finite_value (s : bool) (m : positive) (e : Z) :
  exists p, Decimal.of_number (S754_finite s m e) = Some p
            /\ p == (if s then - reading m e else reading m e).
Proof.
  unfold Decimal.of_number, reading. destruct (decimal_of m e) as [d t].
  eexists. split; [reflexivity|].
  destruct s; [|reflexivity].
  unfold decimal_value. rewrite inject_Z_opp. ring.
Qed.

Lemma Qcompare_opp (a b : Q) : (- a ?= - b) = CompOpp (a ?= b).
Proof.
  destruct (a ?= b) eqn:H; cbn [CompOpp].
  - apply Qeq_alt in H. apply Qeq_alt. now rewrite H.
  - apply Qlt_alt in H. apply Qgt_alt. now apply Qopp_lt_compat.
  - apply Qgt_alt in H. apply Qlt_alt. now apply Qopp_lt_compat.
Qed.

(** The exact decimals two canonical finite numbers are read as compare as
    the numbers do. *)
Theorem of_number_compare (x y : number) :
  valid x = true -> valid y = true ->
  isFinite x = true -> isFinite y = true ->
  exists p q,
    Decimal.of_number x = Some p /\ Decimal.of_number y = Some q
    /\ SFcompare x y = Some (p ?= q).
Proof.
  intros Vx Vy Fx Fy.
  destruct x as [sx| | |sx mx ex]; try discriminate;
    destruct y as [sy| | |sy my ey]; try discriminate.
  - exists 0, 0. repeat split.
  - destruct (of_number_finite_value sy my ey) as (q & Hq & Hv).
    exists 0, q. split; [reflexivity|split; [exact Hq|]].
    cbn [SFcompare]. f_equal. symmetry.
    rewrite (Qcompare_comp _ _ (Qeq_refl 0) _ _ Hv).
    pose proof (reading_pos my ey) as Hp.
    destruct sy.
    + apply Qgt_alt. apply Qopp_lt_compat in Hp. exact Hp.
    + now apply Qlt_alt.
  - destruct (of_number_finite_value sx mx ex) as (p & Hp & Hv).
    exists p, 0. split; [exact Hp|split; [reflexivity|]].
    cbn [SFcompare]. f_equal. symmetry.
    rewrite (Qcompare_comp _ _ Hv _ _ (Qeq_refl 0)).
    pose proof (reading_pos mx ex) as Hpos.
    destruct sx.
    + apply Qlt_alt. apply Qopp_lt_compat in Hpos. exact Hpos.
    + now apply Qgt_alt.
  - destruct (of_number_finite_value sx mx ex) as (p & Hp & Hv).
    destruct (of_number_finite_value sy my ey) as (q & Hq & Hw).
    exists p, q. split; [exact Hp|split; [exact Hq|]].
    cbn [valid valid_binary] in Vx, Vy.
    rewrite (Qcompare_comp _ _ Hv _ _ Hw).
    pose proof (reading_pos mx ex) as Hpx.
    pose proof (reading_pos my ey) as Hpy.
    cbn [SFcompare]. f_equal.
    destruct sx, sy.
    + rewrite Qcompare_opp, (reading_compare mx my ex ey Vx Vy).
      destruct (ex ?= ey)%Z; reflexivity.
    + symmetry. apply Qlt_alt.
      apply Qlt_trans with 0; [|assumption].
      apply Qopp_lt_compat in Hpx. exact Hpx.
    + symmetry. apply Qgt_alt.
      apply Qlt_trans with 0; [|assumption].
      apply Qopp_lt_compat in Hpy. exact Hpy.
    + rewrite (reading_compare mx my ex ey Vx Vy).
      destruct (ex ?= ey)%Z; reflexivity.
Qed.

End ReadingOrder.

(** ** C9: the comparisons within a currency *)

Lemma SFcompare_antisym (x y : Num.number) :
  SFcompare y x = option_map CompOpp (SFcompare x y).
Proof.
  destruct x as [s| s| |s m e], y as [s'| s'| |s' m' e']; cbn;
    try reflexivity;
    try (destruct s; reflexivity);
    try (destruct s'; reflexivity);
    try (destruct s, s'; reflexivity).
  destruct s, s'; try reflexivity;
    rewrite (Z.compare_antisym e e');
    destruct (e ?= e') eqn:He; cbn; try reflexivity;
    change (Pos.compare_cont Eq m' m) with (m' ?= m)%positive;
    change (Pos.compare_cont Eq m m') with (m ?= m')%positive;
    rewrite (Pos.compare_antisym m m');
    destruct (m ?= m')%positive; reflexivity.
Qed.

Lemma SFcompare_finite (x y : Num.number) :
  Num.isFinite x = true -> Num.isFinite y = true ->
  exists c, SFcompare x y = Some c.
Proof.
  destruct x, y; cbn; try discriminate; intros _ _; eexists; reflexivity.
Qed.

(** The order of the host's finite numbers is strict and total. *)
Lemma number_trichotomy (x y : Num.number) :
  Num.isFinite x = true -> Num.isFinite y = true ->
  exactly_one (Num.ltb x y) (Num.eqb x y) (Num.ltb y x) = true.
Proof.
  intros Hx Hy. unfold Num.ltb, Num.eqb, SFltb, SFeqb.
  rewrite (SFcompare_antisym x y).
  destruct (SFcompare_finite x y Hx Hy) as [c ->].
  now destruct c.
Qed.

Section Comparisons.
Context {L : BigNumberLib} {O : BigNumberOrder L}.

(** C9: for every two Money values a and b with equal currency, exactly
    one of a.isLessThan(b), a.isEqual(b), a.isGreaterThan(b) holds, and if
    a.amount < b.amount then a.isLessThan(b) is true and
    a.isGreaterThan(b) is false. The amounts are numbers of the host, and
    the collaborator's comparisons agree with the order of the numbers, as
    the exact-decimal one does. *)
Theorem comparisons_strict_total (a b : Money) :
  constructed a -> constructed b ->
  Num.valid (amount a) = true -> Num.valid (amount b) = true ->
  CurrencyOps.equals (currency a) (currency b) = true ->
  exists lt eq gt,
    isLessThan a (OMoney b) = Ok lt
    /\ isEqual a (OMoney b) = Ok eq
    /\ isGreaterThan a (OMoney b) = Ok gt
    /\ exactly_one lt eq gt = true
    /\ (Num.ltb (amount a) (amount b) = true -> lt = true /\ gt = false).
Proof.
  intros Ha Hb Va Vb Hcur.
  apply constructed_finite in Ha. apply constructed_finite in Hb.
  pose proof (validate_Money a b) as Hv. rewrite Hcur in Hv.
  exists (Num.ltb (amount a) (amount b)), (Num.eqb (amount a) (amount b)),
    (Num.ltb (amount b) (amount a)).
  unfold isLessThan, isEqual, isGreaterThan. rewrite Hv. cbn [bind].
  cbn [operand_amount bn_of_value].
  rewrite (bn_isLessThan_spec _ _ Va Vb Ha Hb),
    (bn_isEqual_spec _ _ Va Vb Ha Hb),
    (bn_isGreaterThan_spec _ _ Va Vb Ha Hb).
  split; [reflexivity|split; [reflexivity|split; [reflexivity|]]].
  split; [now apply number_trichotomy|].
  intros Hlt. split; [exact Hlt|].
  pose proof (number_trichotomy _ _ Ha Hb) as Ht.
  rewrite Hlt in Ht.
  destruct (Num.ltb (amount b) (amount a)),
    (Num.eqb (amount a) (amount b)); cbn in Ht; congruence.
Qed.

End Comparisons.

(** The exact-decimal model of the collaborator compares as the spec asks:
    the decimals two numbers of the host are read as are ordered as the
    numbers are. *)
Lemma decimal_order : BigNumberOrder decimal_BigNumber.
Proof.
  split; intros x y Vx Vy Fx Fy;
    destruct (ReadingOrder.of_number_compare x y Vx Vy Fx Fy)
      as (p & q & Hp & Hq & Hc);
    cbn [bn_isEqual bn_isLessThan bn_isGreaterThan bn_new decimal_BigNumber];
    rewrite Hp, Hq; cbn [Decimal.compare_with];
    unfold Num.eqb, Num.ltb, SFeqb, SFltb.
  - rewrite Hc. now destruct (p ?= q)%Q.
  - rewrite Hc. now destruct (p ?= q)%Q.
  - rewrite (SFcompare_antisym x y), Hc. now destruct (p ?= q)%Q.
Qed.

(** The host's own comparisons meet it as well. *)
Lemma native_order : BigNumberOrder native_BigNumber.
Proof. split; intros; reflexivity. Qed.

Lemma comparisons_strict_total_witness :
  Money_in (lit 1 0) USD = Ok money_1_usd
  /\ Money_in (lit 2 0) USD = Ok money_2_usd
  /\ exists lt eq gt,
      isLessThan money_1_usd (OMoney money_2_usd) = Ok lt
      /\ isEqual money_1_usd (OMoney money_2_usd) = Ok eq
      /\ isGreaterThan money_1_usd (OMoney money_2_usd) = Ok gt
      /\ exactly_one lt eq gt = true
      /\ (Num.ltb (amount money_1_usd) (amount money_2_usd) = true ->
          lt = true /\ gt = false).
Proof.
  assert (H1 : Money_in (lit 1 0) USD = Ok money_1_usd) by (vm_compute; reflexivity).
  assert (H2 : Money_in (lit 2 0) USD = Ok money_2_usd) by (vm_compute; reflexivity).
  split; [exact H1|split; [exact H2|]].
  apply (comparisons_strict_total (L := decimal_BigNumber) (O := decimal_order)
           money_1_usd money_2_usd (ex_intro _ _ H1) (ex_intro _ _ H2)).
  - vm_compute. reflexivity.
  - vm_compute. reflexivity.
  - reflexivity.
Defined.

(** Under the exact-decimal model the three comparisons are exclusive and
    exhaustive whatever the representation of the amounts: the decimals two
    finite numbers are read as are ordered one way only. *)
Lemma of_number_finite (x : Num.number) :
  Num.isFinite x = true -> exists q, Decimal.of_number x = Some q.
Proof.
  destruct x as [s| s| |s m e]; cbn [Num.isFinite]; try discriminate; intros _.
  - now exists 0%Q.
  - unfold Decimal.of_number. destruct (Conv.decimal_of m e) as [d e10].
    eexists. reflexivity.
Qed.

Lemma decimal_comparisons_total (a b : Money) :
  constructed a -> constructed b ->
  CurrencyOps.equals (currency a) (currency b) = true ->
  exists p q lt eq gt,
    Decimal.of_number (amount a) = Some p
    /\ Decimal.of_number (amount b) = Some q
    /\ isLessThan (L := decimal_BigNumber) a (OMoney b) = Ok lt
    /\ isEqual (L := decimal_BigNumber) a (OMoney b) = Ok eq
    /\ isGreaterThan (L := decimal_BigNumber) a (OMoney b) = Ok gt
    /\ exactly_one lt eq gt = true
    /\ ((p < q)%Q -> lt = true /\ gt = false).
Proof.
  intros Ha Hb Hcur.
  apply constructed_finite, of_number_finite in Ha. destruct Ha as [p Hp].
  apply constructed_finite, of_number_finite in Hb. destruct Hb as [q Hq].
  pose proof (validate_Money a b) as Hv. rewrite Hcur in Hv.
  unfold isLessThan, isEqual, isGreaterThan. rewrite Hv.
  cbn [bind operand_amount bn_of_value bn_new bn_isLessThan bn_isEqual
         bn_isGreaterThan decimal_BigNumber].
  rewrite Hp, Hq. cbn [Decimal.compare_with].
  exists p, q. do 3 eexists.
  split; [reflexivity|split; [reflexivity|]].
  split; [reflexivity|split; [reflexivity|split; [reflexivity|]]].
  split; [now destruct (p ?= q)%Q|].
  intros Hlt.
  assert (Hc : (p ?= q)%Q = Lt) by (now apply Qlt_alt).
  now rewrite Hc.
Qed.

(** ** C7: conversion *)

Section Conversion.
Context {L : BigNumberLib}.

Lemma new_Money_made (r : Num.number) (c : Currency) :
  new_Money r c = made r c.
Proof.
  unfold made. destruct (Num.isFinite r) eqn:H.
  - now apply new_Money_finite.
  - now apply new_Money_not_finite.
Qed.

(** C7, amended: for every Money m, finite rate r and currency c,
    m.convert(r, c) raises SameCurrencyConversion when c equals m's
    currency by value; when c differs and the collaborator's product of
    m.amount and r is a finite number, it returns a new Money with that
    amount and currency c; when the product is not finite the
    construction of the result fails with InvalidAmount. *)
Theorem convert_spec (m : Money) (r : Num.number) (c : Currency) :
  Num.isFinite r = true ->
  convert m (VNum r) (VCurrency c)
  = if CurrencyOps.equals (currency m) c
    then Err (SameCurrencyConversion
                ("Converting to same currency '" ++ code (currency m)
                   ++ "' is not allowed"))
    else made (bn_toNumber (bn_multiply (bn_new (amount m)) (bn_new r))) c.
Proof.
  intros Hr. unfold convert, isIn. cbn [Host.check_Number Host.check_Currency].
  rewrite Hr. cbn [bind].
  destruct (CurrencyOps.equals (currency m) c); [reflexivity|].
  cbn [Host.new_Currency bind bn_of_value]. apply new_Money_made.
Qed.

End Conversion.

(** C7, as stated, fails: 1e308 USD converted at the finite rate 10 to EUR
    gives no Money, the product being beyond the host's numbers. *)
Lemma convert_overflow_example :
  Money_in (lit 1 308) USD = Ok money_1e308_usd
  /\ Num.isFinite (lit 10 0) = true
  /\ CurrencyOps.equals USD EUR = false
  /\ convert (L := decimal_BigNumber) money_1e308_usd (VNum (lit 10 0))
       (VCurrency EUR)
     = Err InvalidAmount.
Proof. repeat split; vm_compute; reflexivity. Qed.

Lemma convert_spec_witness :
  convert (L := decimal_BigNumber) money_1_usd (VNum (lit 88 (-2)))
    (VCurrency EUR)
  = Ok {| amount := lit 88 (-2); base := "88"; decimals := 2; currency := EUR |}
  /\ convert (L := decimal_BigNumber) money_1_usd (VNum (lit 88 (-2)))
       (VCurrency USD)
     = Err (SameCurrencyConversion
              "Converting to same currency 'USD' is not allowed").
Proof.
  split.
  - rewrite (convert_spec (L := decimal_BigNumber) money_1_usd (lit 88 (-2)) EUR)
      by (vm_compute; reflexivity).
    vm_compute. reflexivity.
  - rewrite (convert_spec (L := decimal_BigNumber) money_1_usd (lit 88 (-2)) USD)
      by (vm_compute; reflexivity).
    vm_compute. reflexivity.
Defined.

(** ** C1: arithmetic through the exact-decimal collaborator *)

(** C1, as stated, fails: the exact sum of 1e308 and 1e308 is beyond the
    host's numbers, and add gives no Money. *)
Lemma add_overflow_example :
  Money_in (lit 1 308) USD = Ok money_1e308_usd
  /\ add (L := decimal_BigNumber) money_1e308_usd (OMoney money_1e308_usd)
     = Err InvalidAmount.
Proof. split; vm_compute; reflexivity. Qed.

(** C1, amended: for every two Money values with equal currency, add,
    subtract, multiply, divide and percentage return a Money whose amount is
    the number nearest to the exact decimal result of the operation on the
    two amounts, read as the decimals the host prints for them, whenever
    that number is finite (construction fails with InvalidAmount
    otherwise, as for a zero divisor); delta returns that number for the
    difference. So 0.1 + 0.2 is 0.3, 0.3 - 0.2 is 0.1, 0.1 * 0.2 is 0.02,
    0.3 / 0.2 is 1.5 and 10 percent of 32.32 is 3.232, none of which the
    host's own arithmetic gives. *)
Theorem decimal_arithmetic (a b : Money) (p : Num.number) :
  CurrencyOps.equals (currency a) (currency b) = true ->
  (add (L := decimal_BigNumber) a (OMoney b)
   = made (Exact.sum (amount a) (amount b)) (currency a)
   /\ subtract (L := decimal_BigNumber) a (OMoney b)
      = made (Exact.difference (amount a) (amount b)) (currency a)
   /\ multiply (L := decimal_BigNumber) a (OMoney b)
      = made (Exact.product (amount a) (amount b)) (currency a)
   /\ divide (L := decimal_BigNumber) a (OMoney b)
      = made (Exact.quotient (amount a) (amount b)) (currency a)
   /\ percentage (L := decimal_BigNumber) a (VNum p)
      = made (Exact.percent (amount a) p) (currency a)
   /\ delta (L := decimal_BigNumber) a (OMoney b)
      = Ok (Exact.difference (amount a) (amount b)))
  /\ (Exact.sum (lit 1 (-1)) (lit 2 (-1)) = lit 3 (-1)
      /\ Num.eqb (Num.add (lit 1 (-1)) (lit 2 (-1))) (lit 3 (-1)) = false)
  /\ (Exact.difference (lit 3 (-1)) (lit 2 (-1)) = lit 1 (-1)
      /\ Num.eqb (Num.sub (lit 3 (-1)) (lit 2 (-1))) (lit 1 (-1)) = false)
  /\ (Exact.product (lit 1 (-1)) (lit 2 (-1)) = lit 2 (-2)
      /\ Num.eqb (Num.mul (lit 1 (-1)) (lit 2 (-1))) (lit 2 (-2)) = false)
  /\ (Exact.quotient (lit 3 (-1)) (lit 2 (-1)) = lit 15 (-1)
      /\ Num.eqb (Num.div (lit 3 (-1)) (lit 2 (-1))) (lit 15 (-1)) = false)
  /\ (Exact.percent (lit 3232 (-2)) (lit 10 0) = lit 3232 (-3)
      /\ Num.eqb (Num.div (Num.mul (lit 3232 (-2)) (lit 10 0)) (lit 100 0))
           (lit 3232 (-3)) = false).
Proof.
  intros Hcur. split.
  - pose proof (validate_Money a b) as Hv. rewrite Hcur in Hv.
    unfold add, subtract, multiply, divide, percentage, delta.
    rewrite Hv. cbn [bind operand_amount bn_of_value].
    rewrite !new_Money_made. repeat split; reflexivity.
  - repeat split; vm_compute; reflexivity.
Qed.

Lemma decimal_arithmetic_witness :
  Money_in (lit 1 (-1)) USD = Ok money_0_1_usd
  /\ Money_in (lit 2 (-1)) USD = Ok money_0_2_usd
  /\ add (L := decimal_BigNumber) money_0_1_usd (OMoney money_0_2_usd)
     = Ok {| amount := lit 3 (-1); base := "3"; decimals := 1; currency := USD |}
  /\ multiply (L := decimal_BigNumber) money_0_1_usd (OMoney money_0_2_usd)
     = Ok {| amount := lit 2 (-2); base := "2"; decimals := 2; currency := USD |}.
Proof.
  split; [vm_compute; reflexivity|split; [vm_compute; reflexivity|]].
  destruct (decimal_arithmetic money_0_1_usd money_0_2_usd (lit 10 0) eq_refl)
    as [(Hadd & _ & Hmul & _) _].
  split.
  - rewrite Hadd. vm_compute. reflexivity.
  - rewrite Hmul. vm_compute. reflexivity.
Defined.

(** ** C4: the failures on the amount *)

Lemma new_Currency_error (v : value) (e : error) :
  Host.new_Currency v = Err e -> e = InvalidCurrency.
Proof.
  destruct v; cbn; try (intros H; now inversion H).
  match goal with |- (if ?b then _ else _) = _ -> _ => destruct b end;
    intros H; now inversion H.
Qed.

Lemma Constructor_data_accepted (arguments : list argument) :
  match Constructor_data arguments with
  | Ok (n, _) =>
      amount_accepted arguments = Num.isFinite n
      /\ (rebuilds arguments = false -> Num.isFinite n = true)
  | Err e =>
      rebuilds arguments = false
      /\ ((e = InvalidAmount /\ amount_accepted arguments = false)
          \/ (e = InvalidCurrency /\ amount_accepted arguments = true)
          \/ (e = TypeError /\ arguments = [AValue VNull]))
  end.
Proof.
  destruct arguments as [|[v|d] rest].
  - cbn. auto.
  - destruct v; try (destruct rest; cbn; now auto).
    cbn [Constructor_data amount_accepted rebuilds Host.check_Number].
    destruct (Num.isFinite n) eqn:Hn; [|now auto].
    destruct rest as [|[c|d] rest']; [cbn; auto| |cbn; auto].
    destruct c; cbn; auto.
  - destruct rest as [|a rest]; [|cbn; auto].
    cbn [Constructor_data amount_accepted rebuilds].
    destruct (d_base d), (d_decimals d); cbn [Host.check_Number];
      try (split; [reflexivity|intros; discriminate]);
      destruct (d_amount d); cbn [Host.check_Number]; auto;
      match goal with |- context [Num.isFinite ?n] =>
        destruct (Num.isFinite n) eqn:Hn; auto end.
Qed.

Lemma percentage_non_number (m : Money) (v : value) :
  (forall n, v <> VNum n) ->
  percentage (L := decimal_BigNumber) m v = Err InvalidAmount.
Proof.
  intros Hv. unfold percentage.
  assert (Hnan : bn_of_value (L := decimal_BigNumber) v = None).
  { destruct v; try reflexivity. now destruct (Hv n). }
  rewrite Hnan. cbn [bn_percentage bn_toNumber bn_new decimal_BigNumber].
  replace (Decimal.lift2 _ (Decimal.of_number (amount m)) None) with (@None Q)
    by (unfold Decimal.lift2; now destruct (Decimal.of_number (amount m))).
  now apply new_Money_not_finite.
Qed.

(** C4, as stated, fails, both ways: a record with base and decimals and
    no amount at all is accepted; a record whose amount is the number 5 is
    refused with InvalidAmount when its base does not parse, the amount
    being rebuilt from base and decimals; and a lone null, a non-numeric
    amount, fails with the host's TypeError instead. *)
Lemma missing_amount_accepted_example :
  let d := {| d_amount := VUndefined; d_base := VNum (lit 9999 0);
              d_decimals := Some 3; d_currency := VUndefined |} in
  let d' := {| d_amount := VNum (lit 5 0); d_base := VStr "x";
               d_decimals := Some 1; d_currency := VUndefined |} in
  (d_amount d = VUndefined
   /\ Constructor [AData d] = Ok (money 9999 (-3) "9999" 3 EUR))
  /\ (Host.check_Number (d_amount d') = true
      /\ Constructor [AData d'] = Err InvalidAmount)
  /\ Constructor [AValue VNull] = Err TypeError.
Proof. repeat split; vm_compute; reflexivity. Qed.

(** C4, amended: construction raises InvalidAmount only when the amount it
    works with (the one given, or base / 10^decimals when both are given) is
    not a finite number. It raises it whenever an amount given as first
    argument or as the amount field is missing, non-numeric or not finite
    (a lone null argument left aside), so constructing with NaN or
    Infinity fails; with an amount rebuilt from base and decimals that is
    not finite it fails, with InvalidAmount once the currency resolves.
    percentage raises it for a non-numeric argument. *)
Theorem invalid_amount (arguments : list argument) :
  (Constructor arguments = Err InvalidAmount ->
   amount_accepted arguments = false)
  /\ (amount_accepted arguments = false -> arguments <> [AValue VNull] ->
      (rebuilds arguments = false /\ Constructor arguments = Err InvalidAmount)
      \/ (rebuilds arguments = true
          /\ (Constructor arguments = Err InvalidAmount
              \/ Constructor arguments = Err InvalidCurrency)))
  /\ Money_of S754_nan = Err InvalidAmount
  /\ Money_of (S754_infinity false) = Err InvalidAmount
  /\ Money_of (S754_infinity true) = Err InvalidAmount
  /\ (forall m v, (forall n, v <> VNum n) ->
        percentage (L := decimal_BigNumber) m v = Err InvalidAmount).
Proof.
  split; [|split; [|repeat split; try reflexivity; apply percentage_non_number]].
  - pose proof (Constructor_data_accepted arguments) as H.
    unfold Constructor.
    destruct (Constructor_data arguments) as [[n c]|e]; cbn [bind].
    + destruct H as [Hacc _]. rewrite Hacc.
      match goal with |- context [bind ?r _] => destruct r as [cur|e] eqn:Hc end;
        cbn [bind].
      * unfold ValueObject_check, Host.check_Number. cbn [amount].
        destruct (Num.isFinite n); [discriminate|reflexivity].
      * assert (e = InvalidCurrency) as ->; [|discriminate].
        destruct c; try (inversion Hc; fail); now apply new_Currency_error in Hc.
    + destruct H as (_ & [[_ Hacc]|[[-> _]|[-> _]]]); [auto|discriminate..].
  - pose proof (Constructor_data_accepted arguments) as H.
    unfold Constructor.
    destruct (Constructor_data arguments) as [[n c]|e]; cbn [bind].
    + destruct H as [Hacc Hreb]. rewrite Hacc. intros Hn _.
      destruct (rebuilds arguments);
        [right; split; [reflexivity|]|specialize (Hreb eq_refl); congruence].
      match goal with |- context [bind ?r _] => destruct r as [cur|e] eqn:Hc end;
        cbn [bind].
      * left. unfold ValueObject_check, Host.check_Number. cbn [amount].
        now rewrite Hn.
      * right. f_equal.
        destruct c; try (inversion Hc; fail); now apply new_Currency_error in Hc.
    + destruct H as (Hreb & [[-> _]|[[_ Hacc]|[_ ->]]]).
      * intros _ _. left. now split.
      * intros Hn. congruence.
      * intros _ Hnull. now destruct Hnull.
Qed.

Lemma invalid_amount_witness :
  Constructor [AValue (VStr "20")] = Err InvalidAmount
  /\ Constructor [] = Err InvalidAmount
  /\ Constructor [AValue (VCurrency EUR)] = Err InvalidAmount
  /\ percentage (L := decimal_BigNumber) money_1_usd (VStr "20")
     = Err InvalidAmount.
Proof.
  destruct (invalid_amount [AValue (VStr "20")]) as (_ & H1 & _ & _ & _ & Hp).
  destruct (invalid_amount []) as (_ & H2 & _).
  destruct (invalid_amount [AValue (VCurrency EUR)]) as (_ & H3 & _).
  split; [|split; [|split]].
  - destruct (H1 eq_refl ltac:(discriminate)) as [[_ H]|[H _]];
      [exact H|discriminate H].
  - destruct (H2 eq_refl ltac:(discriminate)) as [[_ H]|[H _]];
      [exact H|discriminate H].
  - destruct (H3 eq_refl ltac:(discriminate)) as [[_ H]|[H _]];
      [exact H|discriminate H].
  - apply Hp. discriminate.
Defined.

(** ** The scenarios of the test suite *)

Example construction_scenarios :
  Constructor [AValue (VNum (lit 55 (-1))); AValue (VCurrency EUR)]
  = Ok money_5_5
  /\ Money_of (lit 5 0) = Ok (money 5 0 "5" 0 EUR)
  /\ Constructor [AValue (VNum (lit 5 0)); AValue (VStr "EUR")]
     = Ok (money 5 0 "5" 0 EUR)
  /\ Money_of (lit (-121340) (-2)) = Ok (money (-12134) (-1) "-12134" 1 EUR)
  /\ Money_of (lit 115555555 (-8))
     = Ok (money 115555555 (-8) "1155555550" 9 EUR).
Proof. repeat split; vm_compute; reflexivity. Qed.

Example serialization_scenarios :
  Money_of (lit 99999 (-4)) = Ok (money 99999 (-4) "99999" 4 EUR)
  /\ reconstruct (money 99999 (-4) "99999" 4 EUR)
     = Ok (money 99999 (-4) "99999" 4 EUR)
  /\ reconstruct money_0 = Ok money_0.
Proof. repeat split; vm_compute; reflexivity. Qed.

Example comparison_scenarios :
  isGreaterThan money_2_usd (OMoney money_1_usd) = Ok true
  /\ isGreaterThan money_1_usd (OMoney money_2_usd) = Ok false
  /\ isLessThan money_1_usd (OMoney money_2_usd) = Ok true
  /\ isEqual money_1_usd (OMoney money_1_usd) = Ok true
  /\ isGreaterThanOrEqualTo money_2_usd (OMoney money_2_usd) = Ok true
  /\ isLessThanOrEqualTo money_2_usd (OMoney money_2_usd) = Ok true
  /\ isIn money_1_usd (VCurrency USD) = Ok true
  /\ isIn money_1_usd (VCurrency EUR) = Ok false.
Proof. repeat split; vm_compute; reflexivity. Qed.

Example calculation_scenarios :
  add money_1_usd (OMoney money_2_usd) = Ok (money 3 0 "3" 0 USD)
  /\ delta (money 6 0 "6" 0 USD) (OMoney money_2_usd) = Ok (lit 4 0)
  /\ delta money_2_usd (OMoney (money 6 0 "6" 0 USD)) = Ok (lit (-4) 0)
  /\ percentage (money 100 0 "100" 0 USD) (VNum (lit 20 0))
     = Ok (money 20 0 "20" 0 USD)
  /\ subtract (money 3 (-1) "3" 1 USD) (OMoney money_0_2_usd)
     = Ok money_0_1_usd
  /\ divide (money 3 (-1) "3" 1 USD) (OMoney money_0_2_usd)
     = Ok (money 15 (-1) "15" 1 USD)
  /\ percentage (money 3232 (-2) "3232" 2 USD) (VNum (lit 10 0))
     = Ok (money 3232 (-3) "3232" 3 USD)
  /\ convert money_0_1_usd (VNum (lit 2 (-1))) (VCurrency EUR)
     = Ok (money 2 (-2) "2" 2 EUR).
Proof. repeat split; vm_compute; reflexivity. Qed.

(** What the host's own arithmetic would give in the place of the
    collaborator: the values the suite rules out. *)
Example native_scenarios :
  Num.add (lit 1 (-1)) (lit 2 (-1)) = lit 30000000000000004 (-17)
  /\ Num.sub (lit 3 (-1)) (lit 2 (-1)) = lit 9999999999999998 (-17)
  /\ Num.mul (lit 1 (-1)) (lit 2 (-1)) = lit 20000000000000004 (-18)
  /\ Num.div (lit 3 (-1)) (lit 2 (-1)) = lit 14999999999999998 (-16)
  /\ Num.div (Num.mul (lit 3232 (-2)) (lit 10 0)) (lit 100 0)
     = lit 32319999999999998 (-16).
Proof. repeat split; vm_compute; reflexivity. Qed.

Example guard_scenarios :
  isEqual money_1_usd (OMoney (money 1 0 "1" 0 EUR))
  = Err (CurrencyMismatch
           ("Currency passed 'EUR' does not match required"
              ++ ERRORS.newline ++ "    'USD'"))
  /\ isEqual money_5_5 (OValue (VNum (lit 1 0))) = Err TypeError
  /\ convert money_5_5 (VStr "abcd") VUndefined = Err InvalidRate
  /\ convert money_5_5 (VNum (lit 1 0)) (VStr "EUR") = Err InvalidCurrency
  /\ convert money_5_5 (VNum (lit 1 0)) (VCurrency EUR)
     = Err (SameCurrencyConversion
              "Converting to same currency 'EUR' is not allowed").
Proof. repeat split; vm_compute; reflexivity. Qed.

(** * Further properties of the source *)

(** One case per binary operation, opened up to its call of the guard. *)
Ltac by_operation op :=
  destruct op; cbn [run];
  unfold add, subtract, multiply, divide, delta, isEqual, isGreaterThan,
    isGreaterThanOrEqualTo, isLessThan, isLessThanOrEqualTo.

(** ** The guard on operands that are not instances *)

Section GuardOperands.
Context {L : BigNumberLib}.

(** The guard looks at the receiver's currency only. *)
Lemma validate_by_currency (m m' : Money) (other : operand) :
  currency m = currency m' ->
  _validateCompatibility m other = _validateCompatibility m' other.
Proof.
  intros H. unfold _validateCompatibility, isIn. now rewrite H.
Qed.

(** The guard gives [true] or fails. *)
Lemma validate_Ok (m : Money) (other : operand) (b : bool) :
  _validateCompatibility m other = Ok b -> b = true.
Proof.
  unfold _validateCompatibility.
  destruct (operand_currency other) as [c|e]; cbn [bind]; [|discriminate].
  match goal with |- bind ?r _ = _ -> _ => destruct r as [[|]|e] end;
    cbn [bind]; try discriminate.
  - intros H. now inversion H.
  - destruct (ERRORS.currencyMissmatch (currency m) c); discriminate.
Qed.

(** X1: An operand whose currency is set but is no instance of Currency, the
    code as a string for one, is refused by the check of [isIn] in every
    binary operation, before any comparison of currencies. *)
Theorem operand_currency_not_instance (op : binary) (m : Money)
        (other : operand) (c : value) :
  operand_currency other = Ok c ->
  Host.truthy c = true -> is_Currency c = false ->
  run op m other = Err InvalidCurrency.
Proof.
  intros Hc Ht Hi. apply run_guard_fails.
  unfold _validateCompatibility, isIn. rewrite Hc. cbn [bind]. rewrite Ht.
  destruct c; cbn in *; try discriminate; reflexivity.
Qed.

(** X2: An operand whose currency is set to a falsy value other than null
    (false, 0, NaN, the empty string) is refused by every binary operation
    with the currency-mismatch error, whose message carries the string of
    that value and the receiver's code. *)
Theorem operand_currency_falsy (op : binary) (m : Money) (other : operand)
        (c : value) (printed : string) :
  operand_currency other = Ok c ->
  Host.truthy c = false -> Host.toString c = Ok printed ->
  run op m other = Err (CurrencyMismatch (mismatch_text (currency m) printed))
  /\ embeds printed (mismatch_text (currency m) printed)
  /\ embeds (code (currency m)) (mismatch_text (currency m) printed).
Proof.
  intros Hc Ht Hp. split; [|split].
  - apply run_guard_fails.
    unfold _validateCompatibility, ERRORS.currencyMissmatch.
    rewrite Hc. cbn [bind]. rewrite Ht. cbn [bind]. rewrite Hp. reflexivity.
  - unfold mismatch_text. apply embeds_intro.
  - unfold mismatch_text.
    exists ("Currency passed '" ++ printed ++ "' does not match required"
              ++ ERRORS.newline ++ "    '"), "'".
    now rewrite !append_assoc.
Qed.

(** X3: Of its operand a binary operation reads the currency and the amount
    and nothing else: two operands that agree on both give the same
    result. *)
Theorem operand_read_by_fields (op : binary) (m : Money) (o o' : operand) :
  operand_currency o = operand_currency o' ->
  operand_amount o = operand_amount o' ->
  run op m o = run op m o'.
Proof.
  intros Hc Ha.
  assert (Hv : _validateCompatibility m o = _validateCompatibility m o')
    by (unfold _validateCompatibility; now rewrite Hc).
  by_operation op; rewrite Hv, Ha; reflexivity.
Qed.

End GuardOperands.

Lemma operand_currency_not_instance_witness :
  run (L := decimal_BigNumber) Add money_1_usd
    (OData {| d_amount := VNum (lit 2 0); d_base := VUndefined;
              d_decimals := None; d_currency := VStr "USD" |})
  = Err InvalidCurrency.
Proof.
  apply (operand_currency_not_instance (L := decimal_BigNumber) Add money_1_usd
           _ (VStr "USD")); reflexivity.
Defined.

Lemma operand_currency_falsy_witness :
  run (L := decimal_BigNumber) IsEqual money_1_usd
    (OData {| d_amount := VNum (lit 1 0); d_base := VUndefined;
              d_decimals := None; d_currency := VStr "" |})
  = Err (CurrencyMismatch (mismatch_text USD ""))
  /\ embeds "" (mismatch_text USD "")
  /\ embeds "USD" (mismatch_text USD "").
Proof.
  apply (operand_currency_falsy (L := decimal_BigNumber) IsEqual money_1_usd
           _ (VStr "") ""); reflexivity.
Defined.

Lemma operand_read_by_fields_witness :
  run (L := decimal_BigNumber) Add money_1_usd
    (OData {| d_amount := VNum (lit 2 0); d_base := VStr "junk";
              d_decimals := Some 7; d_currency := VCurrency USD |})
  = run (L := decimal_BigNumber) Add money_1_usd (OMoney money_2_usd).
Proof.
  apply (operand_read_by_fields (L := decimal_BigNumber) Add money_1_usd);
    reflexivity.
Defined.

(** ** What the operations give back *)

Section Results.
Context {L : BigNumberLib}.

Lemma made_Ok (n : Num.number) (c : Currency) (r : Money) :
  made n c = Ok r ->
  amount r = n /\ currency r = c /\ Num.isFinite n = true.
Proof.
  unfold made. destruct (Num.isFinite n); [|discriminate].
  intros H. inversion H. cbn. auto.
Qed.

(** X4: The Money an arithmetic operation gives back is in the receiver's
    currency, is itself a constructed instance, and passes the guard
    against the same operand again, so operations chain. *)
Theorem money_result (op : binary) (m : Money) (other : operand) (r : Money) :
  run op m other = Ok (RMoney r) ->
  currency r = currency m
  /\ constructed r
  /\ _validateCompatibility r other = Ok true.
Proof.
  by_operation op;
    destruct (_validateCompatibility m other) as [b|e] eqn:Hv; cbn [bind];
    try discriminate;
    try (match goal with
         | |- context [bn_toNumber ?x] => generalize (bn_toNumber x)
         end;
         intros n; destruct (new_Money n (currency m)) as [r'|e] eqn:Hn;
         cbn [bind]; [|discriminate];
         intros H; inversion H; subst r';
         pose proof Hn as Hc; rewrite new_Money_made in Hc;
         apply made_Ok in Hc; destruct Hc as (_ & Hc & _);
         split; [exact Hc|]; split;
         [eexists; exact Hn|];
         rewrite (validate_by_currency r m other Hc), Hv;
         now rewrite (validate_Ok m other b Hv)).
Qed.

(** X5: percentage has no guard: it gives a Money in the receiver's currency
    or fails on the amount of its result, and in no other way. *)
Theorem percentage_unguarded (m : Money) (v : value) :
  match percentage m v with
  | Ok r => currency r = currency m /\ constructed r
  | Err e => e = InvalidAmount
  end.
Proof.
  unfold percentage.
  match goal with |- context [bn_toNumber ?x] => generalize (bn_toNumber x) end.
  intros n. destruct (new_Money n (currency m)) as [r|e] eqn:Hn.
  - pose proof Hn as Hc. rewrite new_Money_made in Hc.
    apply made_Ok in Hc. destruct Hc as (_ & Hc & _).
    split; [exact Hc|]. eexists. exact Hn.
  - rewrite new_Money_made in Hn. unfold made in Hn.
    destruct (Num.isFinite n); inversion Hn. reflexivity.
Qed.

(** X6: subtract is delta followed by the construction of the result: delta
    gives the amount subtract stores, and gives a number wherever the
    guard passes, also one that no Money can hold. *)
Theorem subtract_by_delta (m : Money) (other : operand) :
  subtract m other = (n <- delta m other ;; made n (currency m))
  /\ (forall r, subtract m other = Ok r -> delta m other = Ok (amount r))
  /\ (forall b, _validateCompatibility m other = Ok b ->
      exists n, delta m other = Ok n).
Proof.
  unfold subtract, delta.
  destruct (_validateCompatibility m other) as [b|e]; cbn [bind].
  - split; [apply new_Money_made|]. split.
    + intros r Hr. rewrite new_Money_made in Hr. apply made_Ok in Hr.
      destruct Hr as (-> & _). reflexivity.
    + intros _ _. eexists. reflexivity.
  - split; [reflexivity|]. split; intros; discriminate.
Qed.

(** X7: convert checks its rate before anything else: a rate that is not a
    number fails with InvalidRate whatever the currency argument is. *)
Theorem convert_rate_first (m : Money) (rate currency' : value) :
  is_number rate = false ->
  convert m rate currency' = Err InvalidRate.
Proof.
  intros H. unfold convert. destruct rate; try discriminate; reflexivity.
Qed.

(** X8: convert takes an instance of Currency only: with a finite rate, any
    other currency argument, the code as a string or none at all, fails
    with InvalidCurrency. *)
Theorem convert_currency_instance (m : Money) (r : Num.number)
        (currency' : value) :
  Num.isFinite r = true -> is_Currency currency' = false ->
  convert m (VNum r) currency' = Err InvalidCurrency.
Proof.
  intros Hr Hc. unfold convert. cbn [Host.check_Number]. rewrite Hr.
  cbn [bind]. destruct currency'; try discriminate; reflexivity.
Qed.

Lemma equals_refl (c : Currency) : CurrencyOps.equals c c = true.
Proof. apply String.eqb_refl. Qed.

(** X9: A converted Money is in the target currency, which differs from the
    receiver's: every binary operation between the receiver and the
    result of its conversion raises the currency mismatch. *)
Theorem convert_result (m : Money) (rate currency' : value) (r : Money) :
  convert m rate currency' = Ok r ->
  currency' = VCurrency (currency r)
  /\ isIn r currency' = Ok true
  /\ isIn m currency' = Ok false
  /\ forall op, is_mismatch (run op m (OMoney r)) = true.
Proof.
  unfold convert. destruct (Host.check_Number rate); cbn [bind]; [|discriminate].
  destruct currency' as [| | | | |c]; cbn [Host.check_Currency bind];
    try discriminate.
  unfold isIn at 1. cbn [Host.check_Currency bind].
  destruct (CurrencyOps.equals (currency m) c) eqn:He; [discriminate|].
  cbn [Host.new_Currency bind]. rewrite new_Money_made. intros H.
  apply made_Ok in H. destruct H as (_ & Hc & _). subst c.
  split; [reflexivity|]. split; [|split].
  - unfold isIn. cbn [Host.check_Currency bind]. now rewrite equals_refl.
  - unfold isIn. cbn [Host.check_Currency bind]. now rewrite He.
  - intros op.
    rewrite (run_guard_fails op m (OMoney r)
               (CurrencyMismatch (mismatch_message m r)));
      [reflexivity|].
    now rewrite validate_Money, He.
Qed.

End Results.

Lemma money_result_witness :
  run (L := decimal_BigNumber) Add money_1_usd (OMoney money_2_usd)
  = Ok (RMoney money_3_usd)
  /\ currency money_3_usd = currency money_1_usd
  /\ constructed money_3_usd
  /\ _validateCompatibility money_3_usd (OMoney money_2_usd) = Ok true.
Proof.
  assert (H : run (L := decimal_BigNumber) Add money_1_usd (OMoney money_2_usd)
              = Ok (RMoney money_3_usd)) by (vm_compute; reflexivity).
  split; [exact H|].
  exact (money_result (L := decimal_BigNumber) Add money_1_usd
           (OMoney money_2_usd) money_3_usd H).
Defined.

Lemma convert_rate_first_witness :
  convert (L := decimal_BigNumber) money_5_5 (VStr "abcd") (VStr "nonsense")
  = Err InvalidRate.
Proof.
  apply (convert_rate_first (L := decimal_BigNumber)). reflexivity.
Defined.

Lemma convert_currency_instance_witness :
  convert (L := decimal_BigNumber) money_5_5 (VNum (lit 1 0)) (VStr "EUR")
  = Err InvalidCurrency.
Proof.
  apply (convert_currency_instance (L := decimal_BigNumber));
    vm_compute; reflexivity.
Defined.

Lemma convert_result_witness :
  convert (L := decimal_BigNumber) money_1_usd (VNum (lit 88 (-2)))
    (VCurrency EUR) = Ok money_088_eur
  /\ isIn money_088_eur (VCurrency EUR) = Ok true
  /\ is_mismatch (run (L := decimal_BigNumber) Add money_1_usd
                    (OMoney money_088_eur)) = true.
Proof.
  assert (H : convert (L := decimal_BigNumber) money_1_usd (VNum (lit 88 (-2)))
                (VCurrency EUR) = Ok money_088_eur) by (vm_compute; reflexivity).
  split; [exact H|].
  destruct (convert_result (L := decimal_BigNumber) _ _ _ _ H)
    as (_ & Hin & _ & Hop).
  split; [exact Hin|exact (Hop Add)].
Defined.

(** ** The comparisons as an order *)

Lemma SFcompare_refl (x : Num.number) :
  Num.isFinite x = true -> SFcompare x x = Some Eq.
Proof.
  destruct x as [s|s| |s m e]; cbn; try discriminate; intros _.
  - reflexivity.
  - rewrite Z.compare_refl, Pos.compare_cont_refl. now destruct s.
Qed.

Lemma eqb_sym (x y : Num.number) : Num.eqb x y = Num.eqb y x.
Proof.
  unfold Num.eqb, SFeqb. rewrite (SFcompare_antisym x y).
  destruct (SFcompare x y) as [[| |]|]; reflexivity.
Qed.

(** The order of the host's finite numbers is transitive: the decimals
    they are printed as carry it. *)
Lemma ltb_trans (x y z : Num.number) :
  Num.valid x = true -> Num.valid y = true -> Num.valid z = true ->
  Num.isFinite x = true -> Num.isFinite y = true -> Num.isFinite z = true ->
  Num.ltb x y = true -> Num.ltb y z = true -> Num.ltb x z = true.
Proof.
  intros Vx Vy Vz Fx Fy Fz.
  destruct (ReadingOrder.of_number_compare x y Vx Vy Fx Fy)
    as (p & q & Hp & Hq & Hxy).
  destruct (ReadingOrder.of_number_compare y z Vy Vz Fy Fz)
    as (q' & r & Hq' & Hr & Hyz).
  destruct (ReadingOrder.of_number_compare x z Vx Vz Fx Fz)
    as (p' & r' & Hp' & Hr' & Hxz).
  rewrite Hq in Hq'. inversion Hq'. subst q'.
  rewrite Hp in Hp'. inversion Hp'. subst p'.
  rewrite Hr in Hr'. inversion Hr'. subst r'.
  unfold Num.ltb, SFltb. rewrite Hxy, Hyz, Hxz.
  destruct (p ?= q)%Q eqn:Hpq; try discriminate.
  destruct (q ?= r)%Q eqn:Hqr; try discriminate.
  intros _ _.
  assert (Hlt : (p < r)%Q).
  { apply Qlt_trans with q; now apply Qlt_alt. }
  assert (Hc : (p ?= r)%Q = Lt) by (now apply Qlt_alt).
  now rewrite Hc.
Qed.

Lemma equals_sym (c c' : Currency) :
  CurrencyOps.equals c c' = CurrencyOps.equals c' c.
Proof. apply String.eqb_sym. Qed.

Lemma equals_trans (c c' c'' : Currency) :
  CurrencyOps.equals c c' = true -> CurrencyOps.equals c' c'' = true ->
  CurrencyOps.equals c c'' = true.
Proof.
  unfold CurrencyOps.equals. rewrite !String.eqb_eq. congruence.
Qed.

Section Order.
Context {L : BigNumberLib} {O : BigNumberOrder L}.

(** What the three comparisons answer between two instances. *)
Lemma comparisons_values (a b : Money) :
  constructed a -> constructed b ->
  Num.valid (amount a) = true -> Num.valid (amount b) = true ->
  isLessThan a (OMoney b)
  = (if CurrencyOps.equals (currency a) (currency b)
     then Ok (Num.ltb (amount a) (amount b))
     else Err (CurrencyMismatch (mismatch_message a b)))
  /\ isEqual a (OMoney b)
     = (if CurrencyOps.equals (currency a) (currency b)
        then Ok (Num.eqb (amount a) (amount b))
        else Err (CurrencyMismatch (mismatch_message a b)))
  /\ isGreaterThan a (OMoney b)
     = (if CurrencyOps.equals (currency a) (currency b)
        then Ok (Num.ltb (amount b) (amount a))
        else Err (CurrencyMismatch (mismatch_message a b))).
Proof.
  intros Ha Hb Va Vb.
  apply constructed_finite in Ha. apply constructed_finite in Hb.
  unfold isLessThan, isEqual, isGreaterThan. rewrite (validate_Money a b).
  destruct (CurrencyOps.equals (currency a) (currency b)); cbn [bind];
    [|now repeat split].
  cbn [operand_amount bn_of_value].
  now rewrite (bn_isLessThan_spec _ _ Va Vb Ha Hb),
    (bn_isEqual_spec _ _ Va Vb Ha Hb), (bn_isGreaterThan_spec _ _ Va Vb Ha Hb).
Qed.

(** X10: Within a currency the comparisons mirror one another:
    a.isLessThan(b) is b.isGreaterThan(a), and isEqual does not depend on
    the side it is asked from. *)
Theorem comparisons_mirror (a b : Money) :
  constructed a -> constructed b ->
  Num.valid (amount a) = true -> Num.valid (amount b) = true ->
  CurrencyOps.equals (currency a) (currency b) = true ->
  isLessThan a (OMoney b) = isGreaterThan b (OMoney a)
  /\ isGreaterThan a (OMoney b) = isLessThan b (OMoney a)
  /\ isEqual a (OMoney b) = isEqual b (OMoney a).
Proof.
  intros Ha Hb Va Vb Hc.
  destruct (comparisons_values a b Ha Hb Va Vb) as (Hl & He & Hg).
  destruct (comparisons_values b a Hb Ha Vb Va) as (Hl' & He' & Hg').
  rewrite Hl, He, Hg, Hl', He', Hg'.
  rewrite (equals_sym (currency b) (currency a)), Hc.
  now rewrite (eqb_sym (amount b) (amount a)).
Qed.

(** X11: An instance equals itself and is neither less nor greater than
    itself. *)
Theorem comparisons_reflexive (a : Money) :
  constructed a -> Num.valid (amount a) = true ->
  isEqual a (OMoney a) = Ok true
  /\ isLessThan a (OMoney a) = Ok false
  /\ isGreaterThan a (OMoney a) = Ok false.
Proof.
  intros Ha Va.
  destruct (comparisons_values a a Ha Ha Va Va) as (Hl & He & Hg).
  rewrite Hl, He, Hg, equals_refl.
  apply constructed_finite in Ha.
  unfold Num.eqb, Num.ltb, SFeqb, SFltb. rewrite (SFcompare_refl _ Ha).
  now repeat split.
Qed.

(** X12: isLessThan is transitive: from a.isLessThan(b) and b.isLessThan(c),
    both true, a.isLessThan(c) is true, the three being in one currency. *)
Theorem isLessThan_transitive (a b c : Money) :
  constructed a -> constructed b -> constructed c ->
  Num.valid (amount a) = true -> Num.valid (amount b) = true ->
  Num.valid (amount c) = true ->
  isLessThan a (OMoney b) = Ok true -> isLessThan b (OMoney c) = Ok true ->
  isLessThan a (OMoney c) = Ok true.
Proof.
  intros Ha Hb Hc Va Vb Vc.
  destruct (comparisons_values a b Ha Hb Va Vb) as (Hab & _).
  destruct (comparisons_values b c Hb Hc Vb Vc) as (Hbc & _).
  destruct (comparisons_values a c Ha Hc Va Vc) as (Hac & _).
  rewrite Hab, Hbc, Hac.
  destruct (CurrencyOps.equals (currency a) (currency b)) eqn:E1;
    [|discriminate].
  destruct (CurrencyOps.equals (currency b) (currency c)) eqn:E2;
    [|discriminate].
  rewrite (equals_trans _ _ _ E1 E2).
  intros H1 H2. injection H1 as H1. injection H2 as H2. f_equal.
  apply constructed_finite in Ha. apply constructed_finite in Hb.
  apply constructed_finite in Hc.
  now apply (ltb_trans (amount a) (amount b) (amount c)).
Qed.

End Order.

Lemma constructed_1_usd : constructed money_1_usd.
Proof.
  exists [AData {| d_amount := VNum (lit 1 0); d_base := VUndefined;
                   d_decimals := None; d_currency := VCurrency USD |}].
  vm_compute. reflexivity.
Defined.

Lemma constructed_2_usd : constructed money_2_usd.
Proof.
  exists [AData {| d_amount := VNum (lit 2 0); d_base := VUndefined;
                   d_decimals := None; d_currency := VCurrency USD |}].
  vm_compute. reflexivity.
Defined.

Lemma constructed_6_usd : constructed money_6_usd.
Proof.
  exists [AData {| d_amount := VNum (lit 6 0); d_base := VUndefined;
                   d_decimals := None; d_currency := VCurrency USD |}].
  vm_compute. reflexivity.
Defined.

Lemma comparisons_mirror_witness :
  isLessThan (L := decimal_BigNumber) money_1_usd (OMoney money_2_usd)
  = isGreaterThan (L := decimal_BigNumber) money_2_usd (OMoney money_1_usd)
  /\ isGreaterThan (L := decimal_BigNumber) money_1_usd (OMoney money_2_usd)
     = isLessThan (L := decimal_BigNumber) money_2_usd (OMoney money_1_usd)
  /\ isEqual (L := decimal_BigNumber) money_1_usd (OMoney money_2_usd)
     = isEqual (L := decimal_BigNumber) money_2_usd (OMoney money_1_usd).
Proof.
  apply (comparisons_mirror (L := decimal_BigNumber) (O := decimal_order)
           money_1_usd money_2_usd constructed_1_usd constructed_2_usd);
    vm_compute; reflexivity.
Defined.

Lemma comparisons_reflexive_witness :
  isEqual (L := decimal_BigNumber) money_1_usd (OMoney money_1_usd) = Ok true
  /\ isLessThan (L := decimal_BigNumber) money_1_usd (OMoney money_1_usd)
     = Ok false
  /\ isGreaterThan (L := decimal_BigNumber) money_1_usd (OMoney money_1_usd)
     = Ok false.
Proof.
  apply (comparisons_reflexive (L := decimal_BigNumber) (O := decimal_order)
           money_1_usd constructed_1_usd).
  vm_compute. reflexivity.
Defined.

Lemma isLessThan_transitive_witness :
  isLessThan (L := decimal_BigNumber) money_1_usd (OMoney money_6_usd)
  = Ok true.
Proof.
  apply (isLessThan_transitive (L := decimal_BigNumber) (O := decimal_order)
           money_1_usd money_2_usd money_6_usd
           constructed_1_usd constructed_2_usd constructed_6_usd);
    vm_compute; reflexivity.
Defined.

(** ** The two comparisons that admit equality *)

Lemma SFleb_split (x y : Num.number) :
  Num.isFinite x = true -> Num.isFinite y = true ->
  SFleb x y = Num.ltb x y || Num.eqb x y
  /\ SFleb x y = negb (Num.ltb y x).
Proof.
  intros Hx Hy. unfold SFleb, Num.ltb, Num.eqb, SFltb, SFeqb.
  rewrite (SFcompare_antisym x y).
  destruct (SFcompare_finite x y Hx Hy) as [c ->].
  now destruct c.
Qed.

(** The exact-decimal model of the collaborator meets the law of the two
    comparisons that admit equality. *)
Lemma decimal_non_strict : BigNumberNonStrict decimal_BigNumber.
Proof.
  split; intros x y Vx Vy Fx Fy;
    destruct (ReadingOrder.of_number_compare x y Vx Vy Fx Fy)
      as (p & q & Hp & Hq & Hc);
    cbn [bn_isGreaterThanOrEqualTo bn_isLessThanOrEqualTo bn_new
         decimal_BigNumber];
    rewrite Hp, Hq; cbn [Decimal.compare_with]; unfold SFleb.
  - rewrite (SFcompare_antisym x y), Hc. now destruct (p ?= q)%Q.
  - rewrite Hc. now destruct (p ?= q)%Q.
Qed.

Section NonStrict.
Context {L : BigNumberLib} {O : BigNumberOrder L} {W : BigNumberNonStrict L}.

(** X13: Within a currency, isLessThanOrEqualTo answers what isLessThan or
    isEqual answers, which is what isGreaterThan denies; likewise
    isGreaterThanOrEqualTo with isGreaterThan, isEqual and isLessThan. *)
Theorem comparisons_non_strict (a b : Money) :
  constructed a -> constructed b ->
  Num.valid (amount a) = true -> Num.valid (amount b) = true ->
  CurrencyOps.equals (currency a) (currency b) = true ->
  exists lt eq gt,
    isLessThan a (OMoney b) = Ok lt
    /\ isEqual a (OMoney b) = Ok eq
    /\ isGreaterThan a (OMoney b) = Ok gt
    /\ isLessThanOrEqualTo a (OMoney b) = Ok (lt || eq)
    /\ isGreaterThanOrEqualTo a (OMoney b) = Ok (gt || eq)
    /\ lt || eq = negb gt
    /\ gt || eq = negb lt.
Proof.
  intros Ha Hb Va Vb Hc.
  destruct (comparisons_values a b Ha Hb Va Vb) as (Hl & He & Hg).
  rewrite Hc in Hl, He, Hg.
  exists (Num.ltb (amount a) (amount b)), (Num.eqb (amount a) (amount b)),
    (Num.ltb (amount b) (amount a)).
  split; [exact Hl|split; [exact He|split; [exact Hg|]]].
  apply constructed_finite in Ha. apply constructed_finite in Hb.
  destruct (SFleb_split _ _ Ha Hb) as (H1 & H2).
  destruct (SFleb_split _ _ Hb Ha) as (H3 & H4).
  unfold isLessThanOrEqualTo, isGreaterThanOrEqualTo.
  rewrite (validate_Money a b), Hc. cbn [bind operand_amount bn_of_value].
  rewrite (bn_isLessThanOrEqualTo_spec _ _ Va Vb Ha Hb),
    (bn_isGreaterThanOrEqualTo_spec _ _ Va Vb Ha Hb).
  rewrite (eqb_sym (amount a) (amount b)).
  rewrite <- H3. rewrite (eqb_sym (amount b) (amount a)), <- H1.
  repeat split; assumption.
Qed.

End NonStrict.

Lemma comparisons_non_strict_witness :
  exists lt eq gt,
    isLessThan (L := decimal_BigNumber) money_1_usd (OMoney money_2_usd)
    = Ok lt
    /\ isEqual (L := decimal_BigNumber) money_1_usd (OMoney money_2_usd)
       = Ok eq
    /\ isGreaterThan (L := decimal_BigNumber) money_1_usd (OMoney money_2_usd)
       = Ok gt
    /\ isLessThanOrEqualTo (L := decimal_BigNumber) money_1_usd
         (OMoney money_2_usd) = Ok (lt || eq)
    /\ isGreaterThanOrEqualTo (L := decimal_BigNumber) money_1_usd
         (OMoney money_2_usd) = Ok (gt || eq)
    /\ lt || eq = negb gt
    /\ gt || eq = negb lt.
Proof.
  apply (comparisons_non_strict (L := decimal_BigNumber) (O := decimal_order)
           (W := decimal_non_strict)
           money_1_usd money_2_usd constructed_1_usd constructed_2_usd);
    vm_compute; reflexivity.
Defined.

(** ** The calling conventions of the constructor *)

Lemma default_Currency :
  Host.new_Currency (VStr DEFAULT_CURRENCY) = Ok EUR.
Proof. reflexivity. Qed.

Lemma Constructor_number (n : Num.number) (c : value) (cur : Currency) :
  match c with
  | VCurrency cur' => Ok cur'
  | _ => Host.new_Currency (if Host.truthy c then c else VStr DEFAULT_CURRENCY)
  end = Ok cur ->
  Constructor [AData (record_of (VNum n) c)] = made n cur.
Proof.
  intros H. unfold Constructor, Constructor_data, record_of, made.
  cbn [d_base d_decimals d_amount d_currency Host.check_Number].
  destruct (Num.isFinite n) eqn:Hn; cbn [bind]; [|reflexivity].
  rewrite H. cbn [bind].
  now apply ValueObject_check_finite.
Qed.

Lemma Constructor_positional (v c : value) (rest : list argument) :
  Constructor (AValue v :: AValue c :: rest)
  = Constructor [AData (record_of v c)].
Proof.
  unfold Constructor, Constructor_data, record_of.
  cbn [d_base d_decimals d_amount d_currency].
  destruct v as [| |b|n|s|cur]; try reflexivity.
  destruct (Host.check_Number (VNum n)); [|reflexivity].
  destruct c; reflexivity.
Qed.

Lemma Constructor_single (n : Num.number) :
  Constructor [AValue (VNum n)]
  = Constructor [AData (record_of (VNum n) VUndefined)].
Proof.
  unfold Constructor, Constructor_data, record_of.
  cbn [d_base d_decimals d_amount d_currency].
  destruct (Host.check_Number (VNum n)); reflexivity.
Qed.

(** X14: new Money(amount, currency) is new Money({amount, currency}), whatever
    the two values are and whatever arguments follow them; and
    new Money(n), for a number n, is new Money({amount: n}). *)
Theorem Constructor_forms_agree (v c : value) (rest : list argument) :
  Constructor (AValue v :: AValue c :: rest)
  = Constructor [AData (record_of v c)]
  /\ forall n, Constructor [AValue (VNum n)]
               = Constructor [AData (record_of (VNum n) VUndefined)].
Proof.
  split; [apply Constructor_positional|apply Constructor_single].
Qed.

(** X15: A currency argument that is falsy (undefined, null, false, 0, NaN or
    the empty string) is replaced by the default currency: the call is
    new Money(n), which gives the instance of n in EUR, or fails with
    InvalidAmount when n is not finite. *)
Theorem Constructor_default_currency
  (n : Num.number) (c : value) (rest : list argument) :
  Host.truthy c = false ->
  Constructor (AValue (VNum n) :: AValue c :: rest)
  = Constructor [AValue (VNum n)]
  /\ Constructor [AValue (VNum n)] = made n EUR.
Proof.
  intros Hc.
  rewrite Constructor_positional, Constructor_single.
  rewrite (Constructor_number n VUndefined EUR) by reflexivity.
  split; [|reflexivity].
  apply Constructor_number.
  destruct c; try discriminate Hc; rewrite ?Hc; reflexivity.
Qed.

Lemma Constructor_default_currency_witness :
  Constructor (AValue (VNum (lit 55 (-1))) :: AValue (VStr "") :: [])
  = Constructor [AValue (VNum (lit 55 (-1)))]
  /\ Constructor [AValue (VNum (lit 55 (-1)))] = made (lit 55 (-1)) EUR.
Proof.
  apply (Constructor_default_currency (lit 55 (-1)) (VStr "") []).
  reflexivity.
Defined.

(** ** The instances the constructor makes *)

(** X16: The instances the constructor can make are exactly the records with a
    finite amount whose decimals and base are the ones derived from it;
    the currency is free. *)
Theorem constructed_iff (m : Money) :
  constructed m
  <-> Num.isFinite (amount m) = true
      /\ decimals m = _decimalPlaces (amount m)
      /\ base m = base_of (amount m) (decimals m).
Proof.
  split.
  - intros [arguments H]. exact (Constructor_shape _ _ H).
  - intros (Hfin & Hdec & Hbase).
    exists [AData (record_of (VNum (amount m)) (VCurrency (currency m)))].
    rewrite (Constructor_number _ _ (currency m)) by reflexivity.
    unfold made. rewrite Hfin. destruct m as [n b d c].
    cbn [amount base decimals currency] in *. subst d. subst b. reflexivity.
Qed.

(** X17: A constructed instance is determined by its amount and its currency:
    two instances that agree on them agree on base and decimals too. *)
Theorem constructed_determined (a b : Money) :
  constructed a -> constructed b ->
  amount a = amount b -> currency a = currency b -> a = b.
Proof.
  intros [args Ha] [args' Hb] Hn Hc.
  apply Constructor_shape in Ha. apply Constructor_shape in Hb.
  destruct Ha as (_ & Hda & Hba), Hb as (_ & Hdb & Hbb).
  destruct a as [n b' d c], b as [n' b'' d' c'].
  cbn [amount base decimals currency] in *. congruence.
Qed.

Lemma constructed_determined_witness :
  {| amount := rebuilt (VStr "10") 1; base := "1"; decimals := 0;
     currency := USD |} = money_1_usd.
Proof.
  apply constructed_determined.
  - exists [AData {| d_amount := VUndefined; d_base := VStr "10";
                     d_decimals := Some 1; d_currency := VStr "USD" |}].
    vm_compute. reflexivity.
  - exact constructed_1_usd.
  - vm_compute. reflexivity.
  - reflexivity.
Defined.

Lemma decimalPlaces_negated (n : Num.number) :
  _decimalPlaces (negated n) = _decimalPlaces n.
Proof.
  unfold _decimalPlaces, negated.
  replace (Num.abs (SFopp n)) with (Num.abs n); [reflexivity|].
  now destruct n.
Qed.

(** X18: The sign of an amount plays no role in its decimals: the instance of
    the negated amount of a constructed Money exists and has the same
    decimals. *)
Theorem decimals_sign (m : Money) :
  constructed m ->
  Constructor [AValue (VNum (negated (amount m)));
               AValue (VCurrency (currency m))]
  = Ok {| amount := negated (amount m);
          base := base_of (negated (amount m)) (decimals m);
          decimals := decimals m; currency := currency m |}.
Proof.
  intros [args Hm]. apply Constructor_shape in Hm.
  destruct Hm as (Hfin & Hdec & _).
  rewrite Constructor_positional.
  rewrite (Constructor_number _ _ (currency m)) by reflexivity.
  unfold made. rewrite decimalPlaces_negated, <- Hdec.
  replace (Num.isFinite (negated (amount m))) with true; [reflexivity|].
  rewrite <- Hfin. unfold negated. now destruct (amount m).
Qed.

Lemma decimals_sign_witness :
  Constructor [AValue (VNum (negated (amount money_0_1_usd)));
               AValue (VCurrency (currency money_0_1_usd))]
  = Ok {| amount := negated (amount money_0_1_usd);
          base := base_of (negated (amount money_0_1_usd))
                    (decimals money_0_1_usd);
          decimals := decimals money_0_1_usd;
          currency := currency money_0_1_usd |}.
Proof.
  apply decimals_sign.
  exists [AData (record_of (VNum (lit 1 (-1))) (VCurrency USD))].
  vm_compute. reflexivity.
Defined.
